(** * FijiBento: bounding boxes and the tile-pair selection of the SIFT matcher

    Shallow embedding of [scripts/bounding_box.py] and of the pair-selection
    and data-loading parts of [scripts/match_sift_features_and_filter.py]
    (Python 2).

    Python floats are IEEE-754 binary64 values; they are modelled by the
    standard library's [spec_float] at precision 53 and maximal exponent
    1024, with the comparisons of [SFcompare]. *)

From Stdlib Require Import ZArith List String Ascii Bool Lia.
From Stdlib Require Import Floats.SpecFloat.
Import ListNotations.

Local Open Scope string_scope.
Local Open Scope Z_scope.

(** ** The Python runtime the two scripts rely on *)

Module Py.

(** *** Floats *)

Definition prec : Z := 53.
Definition emax : Z := 1024.

Definition float : Type := spec_float.

(** The four comparison operators of [float], as CPython's
    [float_richcompare] computes them on C doubles. *)
Definition flt (x y : float) : bool :=
  match SFcompare x y with Some Lt => true | _ => false end.

Definition fgt (x y : float) : bool :=
  match SFcompare x y with Some Gt => true | _ => false end.

Definition fle (x y : float) : bool :=
  match SFcompare x y with Some (Lt | Eq) => true | _ => false end.

Definition feq (x y : float) : bool :=
  match SFcompare x y with Some Eq => true | _ => false end.

Definition is_nan (x : float) : bool :=
  match x with S754_nan => true | _ => false end.

Definition is_finite (x : float) : bool :=
  match x with S754_zero _ | S754_finite _ _ _ => true | _ => false end.

(** [float(n)] for a Python [int] or [long]: rounded to nearest, ties to
    even; a value beyond the range of a double raises [OverflowError],
    which [None] stands for here. *)
Definition float_of_Z (n : Z) : option float :=
  match binary_normalize prec emax n 0 false with
  | S754_infinity _ => None
  | f => Some f
  end.

(** [sys.maxint] on a 64-bit build of CPython 2. *)
Definition maxint : Z := 9223372036854775807.

(** *** Strings *)

(** [Py_ISSPACE]: space, tab, line feed, vertical tab, form feed and
    carriage return. *)
Definition is_space (c : ascii) : bool :=
  let n := Z.of_N (N_of_ascii c) in
  (n =? 32) || ((9 <=? n) && (n <=? 13)).

Definition digit_of (c : ascii) : option Z :=
  let n := Z.of_N (N_of_ascii c) in
  if (48 <=? n) && (n <=? 57) then Some (n - 48) else None.

Definition digit_char (d : Z) : ascii := ascii_of_N (Z.to_N (48 + d)).

Definition lower (c : ascii) : ascii :=
  let n := Z.of_N (N_of_ascii c) in
  if (65 <=? n) && (n <=? 90) then ascii_of_N (Z.to_N (n + 32)) else c.

Fixpoint lstrip (s : string) : string :=
  match s with
  | String c r => if is_space c then lstrip r else s
  | EmptyString => s
  end.

(** [s.split(sep)] with an explicit one-character separator: every
    occurrence of [sep] ends a field, so adjacent separators give empty
    fields and the empty string gives one empty field. *)
Fixpoint split (sep : ascii) (s : string) : list string :=
  match s with
  | EmptyString => [""]
  | String c r =>
      if Ascii.eqb c sep then "" :: split sep r
      else match split sep r with
           | t :: ts => String c t :: ts
           | [] => [String c ""]
           end
  end.

(** [sep.join(l)]. *)
Fixpoint join (sep : string) (l : list string) : string :=
  match l with
  | [] => ""
  | [t] => t
  | t :: ts => (t ++ sep ++ join sep ts)%string
  end.

(** [c in s]. *)
Fixpoint has_char (c : ascii) (s : string) : bool :=
  match s with
  | EmptyString => false
  | String d r => Ascii.eqb d c || has_char c r
  end.

(** Decimal numeral of a natural number, most significant digit first. *)
Fixpoint decimal_fuel (fuel : nat) (n : Z) (acc : string) : string :=
  match fuel with
  | O => acc
  | S f =>
      let acc' := String (digit_char (n mod 10)) acc in
      if n <? 10 then acc' else decimal_fuel f (n / 10) acc'
  end.

Definition decimal (n : Z) : string :=
  decimal_fuel (S (Z.to_nat (Z.log2 n))) n "".

(** [str(n)] for an integer. *)
Definition str_of_Z (n : Z) : string :=
  if n <? 0 then ("-" ++ decimal (- n))%string else decimal n.

(** *** [float(s)] for a string [s]

    CPython 2.7 skips leading white space, lets [_Py_dg_strtod] read a
    decimal numeral (falling back to [_Py_parse_inf_or_nan] when it reads
    nothing), skips trailing white space and raises [ValueError] unless the
    whole string has been used.  The numeral is rounded correctly to the
    nearest double, ties to even; overflow gives an infinity. *)

Fixpoint read_digits (s : string) (acc cnt : Z) : Z * Z * string :=
  match s with
  | String c r =>
      match digit_of c with
      | Some d => read_digits r (10 * acc + d) (cnt + 1)
      | None => (acc, cnt, s)
      end
  | EmptyString => (acc, cnt, s)
  end.

Definition read_sign (s : string) : bool * string :=
  match s with
  | String "-" r => (true, r)
  | String "+" r => (false, r)
  | _ => (false, s)
  end.

Definition read_exponent (s : string) : Z * string :=
  match s with
  | String c r =>
      if Ascii.eqb (lower c) "e" then
        let '(neg, r1) := read_sign r in
        let '(v, cnt, r2) := read_digits r1 0 0 in
        if cnt =? 0 then (0, s) else (if neg then - v else v, r2)
      else (0, s)
  | EmptyString => (0, s)
  end.

(** The double nearest to [(-1)^neg * m * 10^e10]. *)
Definition decimal_to_float (neg : bool) (m e10 : Z) : float :=
  match m with
  | Zpos p =>
      if 0 <=? e10
      then binary_round prec emax neg (Z.to_pos (Z.pos p * 10 ^ e10)) 0
      else SFdiv prec emax (S754_finite neg p 0)
             (S754_finite false (Z.to_pos (10 ^ (- e10))) 0)
  | _ => S754_zero neg
  end.

(** [_Py_dg_strtod]: an optional sign, digits with at most one point and
    at least one digit in all, and an exponent that is read only when it
    has digits.  [None] when nothing is read. *)
Definition strtod (s : string) : option (float * string) :=
  let '(neg, s1) := read_sign s in
  let '(ip, n1, s2) := read_digits s1 0 0 in
  let '(m, n2, s3) :=
    match s2 with
    | String "." r => read_digits r ip 0
    | _ => (ip, 0, s2)
    end in
  if n1 + n2 =? 0 then None
  else
    let '(ex, s4) := read_exponent s3 in
    Some (decimal_to_float neg m (ex - n2), s4).

(** [case_insensitive_match]: [pat] is in lower case. *)
Fixpoint imatch (pat s : string) : option string :=
  match pat with
  | EmptyString => Some s
  | String p pr =>
      match s with
      | String c r => if Ascii.eqb (lower c) p then imatch pr r else None
      | EmptyString => None
      end
  end.

Definition parse_inf_or_nan (s : string) : option (float * string) :=
  let '(neg, s1) := read_sign s in
  match imatch "inf" s1 with
  | Some r =>
      match imatch "inity" r with
      | Some r' => Some (S754_infinity neg, r')
      | None => Some (S754_infinity neg, r)
      end
  | None =>
      match imatch "nan" s1 with
      | Some r => Some (S754_nan, r)
      | None => None
      end
  end.

(** [float(s)]; [None] stands for [ValueError]. *)
Definition float_of_string (s : string) : option float :=
  let s0 := lstrip s in
  let parsed :=
    match strtod s0 with
    | Some r => Some r
    | None => parse_inf_or_nan s0
    end in
  match parsed with
  | Some (f, rest) =>
      match lstrip rest with
      | EmptyString => Some f
      | _ => None
      end
  | None => None
  end.

(** *** [str(x)] for a float [x]

    CPython 2.7 formats with [PyOS_double_to_string(x, 'g', 12,
    Py_DTSF_ADD_DOT_0)]: twelve significant digits, correctly rounded,
    trailing zeros dropped; exponent notation when the decimal point would
    fall left of the fourth leading zero or right of the eleventh digit;
    [.0] appended to what would look like an integer.  The empty format
    specification of [str.format] gives the same text. *)

Definition str_precision : Z := 12.

(** The value [m * 2^e] as a fraction. *)
Definition ratio_of (m : positive) (e : Z) : Z * Z :=
  if 0 <=? e then (Z.pos m * 2 ^ e, 1) else (Z.pos m, 2 ^ (- e)).

(** [10^k <= num / den]. *)
Definition ge_pow10 (num den k : Z) : bool :=
  if 0 <=? k then den * 10 ^ k <=? num else den <=? num * 10 ^ (- k).

(** The largest [k] with [10^k <= num/den], searched downwards. *)
Fixpoint floor_log10 (fuel : nat) (num den k : Z) : Z :=
  match fuel with
  | O => k
  | S f => if ge_pow10 num den k then k else floor_log10 f num den (k - 1)
  end.

Definition round_half_even (n d : Z) : Z :=
  let q := n / d in
  match 2 * (n mod d) ?= d with
  | Lt => q
  | Gt => q + 1
  | Eq => if Z.even q then q else q + 1
  end.

(** [_Py_dg_dtoa] in mode 2: the value rounded to [ndigits] significant
    digits, as the integer those digits spell and the position [decpt] of
    the decimal point ([0.d1d2... * 10^decpt]). *)
Definition dtoa (ndigits : Z) (m : positive) (e : Z) : Z * Z :=
  let '(num, den) := ratio_of m e in
  let l := Z.log2 num - Z.log2 den + 1 in
  let k := floor_log10 (Z.to_nat (Z.abs l + 4)) num den (Z.max l 0) in
  let s := ndigits - 1 - k in
  let n := if 0 <=? s then round_half_even (num * 10 ^ s) den
           else round_half_even num (den * 10 ^ (- s)) in
  if n =? 10 ^ ndigits then (10 ^ (ndigits - 1), k + 2) else (n, k + 1).

(** Drops trailing zeros ([""] for a string of zeros). *)
Fixpoint rstrip0 (s : string) : string :=
  match s with
  | EmptyString => ""
  | String c r =>
      match rstrip0 r with
      | EmptyString => if Ascii.eqb c "0" then "" else String c ""
      | r' => String c r'
      end
  end.

Fixpoint zeros (n : nat) : string :=
  match n with
  | O => ""
  | S k => String "0" (zeros k)
  end.

(** [format_float_short] for the code ['g'] with [Py_DTSF_ADD_DOT_0]. *)
Definition format_g (digits : string) (decpt : Z) : string :=
  let len := Z.of_nat (String.length digits) in
  if (decpt <=? -4) || (str_precision - 1 <? decpt) then
    let ex := decpt - 1 in
    let mant :=
      match digits with
      | String d EmptyString => String d ""
      | String d rest => String d ("." ++ rest)
      | EmptyString => ""
      end in
    let sign : string := if ex <? 0 then "-" else "+" in
    let pad : string := if Z.abs ex <? 10 then "0" else "" in
    (mant ++ "e" ++ sign ++ pad ++ decimal (Z.abs ex))%string
  else if decpt <=? 0 then
    ("0." ++ zeros (Z.to_nat (- decpt)) ++ digits)%string
  else if decpt <? len then
    (substring 0 (Z.to_nat decpt) digits ++ "."
       ++ substring (Z.to_nat decpt) (Z.to_nat (len - decpt)) digits)%string
  else
    (digits ++ zeros (Z.to_nat (decpt - len)) ++ ".0")%string.

Definition float_str (x : float) : string :=
  match x with
  | S754_nan => "nan"
  | S754_infinity s => if s then "-inf" else "inf"
  | S754_zero s => if s then "-0.0" else "0.0"
  | S754_finite s m e =>
      let '(n, decpt) := dtoa str_precision m e in
      let body := format_g (rstrip0 (decimal n)) decpt in
      if s then ("-" ++ body)%string else body
  end.

(** *** Values and exceptions *)

(** The values the scripts hand to [float()]: numbers from a JSON tile
    specification and tokens of a string. *)
Inductive value : Type :=
  | PyInt (n : Z)
  | PyFloat (x : float)
  | PyStr (s : string).

(** The exceptions that can leave [bounding_box.py].  [StringRaised msg] is
    the statement [raise msg] of [__init__], whose operand is a string
    (CPython 2.6 and later refuse to raise a string and report [TypeError]
    at that statement; either way [__init__] is left by an exception
    there). *)
Inductive exn : Type :=
  | StringRaised (msg : string)
  | IndexError
  | ValueError
  | OverflowError.

Inductive result (A : Type) : Type :=
  | Ok (a : A)
  | Raise (e : exn).

Arguments Ok {A} a.
Arguments Raise {A} e.

Definition bind {A B : Type} (r : result A) (k : A -> result B) : result B :=
  match r with
  | Ok a => k a
  | Raise e => Raise e
  end.

Definition or_raise {A : Type} (e : exn) (o : option A) : result A :=
  match o with
  | Some a => Ok a
  | None => Raise e
  end.

(** [float(v)]. *)
Definition py_float (v : value) : result float :=
  match v with
  | PyInt n => or_raise OverflowError (float_of_Z n)
  | PyFloat x => Ok x
  | PyStr s => or_raise ValueError (float_of_string s)
  end.

(** [l[i]] for a list [l] and [0 <= i]. *)
Definition getitem {A : Type} (l : list A) (i : nat) : result A :=
  or_raise IndexError (nth_error l i).

End Py.

Notation "x <- r ;; k" := (Py.bind r (fun x => k))
  (at level 61, r at next level, right associativity).

(** ** [bounding_box.py]: class [BoundingBox] *)

Module BBox.
Import Py.

Record BoundingBox : Type := mkBoundingBox {
  from_x : float;
  from_y : float;
  to_x : float;
  to_y : float
}.

(** [validate] *)
Definition validate (self : BoundingBox) : bool :=
  if fgt (from_x self) (to_x self) || fgt (from_y self) (to_y self)
  then false
  else true.

Definition invalid_message (self : BoundingBox) : string :=
  let a0 := float_str (from_x self) in
  let a1 := float_str (from_y self) in
  let a2 := float_str (to_x self) in
  let a3 := float_str (to_y self) in
  ("Invalid bounding box values: " ++ a0 ++ ", " ++ a1 ++ ", " ++ a2 ++ ", "
     ++ a3 ++ " (should be " ++ a0 ++ " < " ++ a1 ++ ", and " ++ a2 ++ " < "
     ++ a3)%string.

(** [__init__]; an argument that is left out is [None] and takes its
    default. *)
Definition init (from_x to_x from_y to_y : option value)
  : result BoundingBox :=
  let arg (o : option value) (d : Z) : value :=
    match o with Some v => v | None => PyInt d end in
  fx <- py_float (arg from_x (- maxint - 1)) ;;
  tx <- py_float (arg to_x maxint) ;;
  fy <- py_float (arg from_y (- maxint - 1)) ;;
  ty <- py_float (arg to_y maxint) ;;
  let self := mkBoundingBox fx fy tx ty in
  if negb (validate self) then Raise (StringRaised (invalid_message self))
  else Ok self.

(** [BoundingBox(from_x, to_x, from_y, to_y)] with all four bounds given,
    and [BoundingBox()] with none. *)
Definition new (from_x to_x from_y to_y : value) : result BoundingBox :=
  init (Some from_x) (Some to_x) (Some from_y) (Some to_y).

Definition default : result BoundingBox := init None None None None.

(** [fromList] *)
Definition fromList (bbox_list : list value) : result BoundingBox :=
  a0 <- getitem bbox_list 0 ;;
  a1 <- getitem bbox_list 1 ;;
  a2 <- getitem bbox_list 2 ;;
  a3 <- getitem bbox_list 3 ;;
  new a0 a1 a2 a3.

(** [fromStr] *)
Definition fromStr (bbox_str : string) : result BoundingBox :=
  fromList (map PyStr (split " " bbox_str)).

(** [overlap] *)
Definition overlap (self other_bbox : BoundingBox) : bool :=
  if flt (from_x self) (to_x other_bbox)
     && fgt (to_x self) (from_x other_bbox)
     && flt (from_y self) (to_y other_bbox)
     && fgt (to_y self) (from_y other_bbox)
  then true
  else false.

(** [extend] assigns to the fields of [self]; the result is [self] after
    the call. *)
Definition extend (self other_bbox : BoundingBox) : BoundingBox :=
  let self :=
    if fgt (from_x self) (from_x other_bbox)
    then mkBoundingBox (from_x other_bbox) (from_y self) (to_x self) (to_y self)
    else self in
  let self :=
    if fgt (from_y self) (from_y other_bbox)
    then mkBoundingBox (from_x self) (from_y other_bbox) (to_x self) (to_y self)
    else self in
  let self :=
    if flt (to_x self) (to_x other_bbox)
    then mkBoundingBox (from_x self) (from_y self) (to_x other_bbox) (to_y self)
    else self in
  let self :=
    if flt (to_y self) (to_y other_bbox)
    then mkBoundingBox (from_x self) (from_y self) (to_x self) (to_y other_bbox)
    else self in
  self.

(** [toStr] *)
Definition toStr (self : BoundingBox) : string :=
  (float_str (from_x self) ++ " " ++ float_str (to_x self) ++ " "
     ++ float_str (from_y self) ++ " " ++ float_str (to_y self))%string.

(** [toArray] *)
Definition toArray (self : BoundingBox) : list float :=
  [from_x self; to_x self; from_y self; to_y self].

End BBox.

(** ** [match_sift_features_and_filter.py]: which tile pairs are matched *)

Module Match.
Import Py.

(** The arguments of one call of
    [match_multiple_sift_features_and_filter]. *)
Record call : Type := mkCall {
  tiles_file : string;
  features_file : string;
  jar : string;
  out_fname : string;
  index_pairs : option (list (Z * Z));
  conf_fname : option string;
  threads_num : option Z
}.

(** The local [indices] of [match_multiple_sift_features_and_filter]. *)
Definition indices (c : call) : string :=
  match index_pairs c with
  | None => "--all"
  | Some l =>
      join " "
        (map (fun ab : Z * Z =>
                ("--indices " ++ str_of_Z (fst ab) ++ ":"
                   ++ str_of_Z (snd ab))%string) l)
  end.

(** The local [threads_str]. *)
Definition threads_str (c : call) : string :=
  match threads_num c with
  | None => ""
  | Some n => ("--threads " ++ str_of_Z n)%string
  end.

Section Command.
(** Module [utils] is imported by the script and is not part of the
    sources: [tiles_url] stands for
    [utils.path2url(os.path.abspath(tiles_file))] and [conf_args] for
    [utils.conf_args_from_file(conf_fname, name)]. *)
Variable tiles_url : string -> string.
Variable conf_args : option string -> string -> string.


End Command.

(** [match_sift_features_and_filter]: everything before its last line is
    commented out, so the function is the one call it makes, with
    [index_pairs=None] and [threads_num=None]. *)
Definition match_sift_features_and_filter
    (tiles_file features_file out_fname jar_file : string)
    (conf_fname : option string) (threads_num : option Z) : call :=
  mkCall tiles_file features_file jar_file out_fname None conf_fname None.

End Match.

(** ** Vocabulary of the specification *)

Module Spec.
Import Py BBox.

(** A float that is a number. *)
Definition number (x : float) : Prop := is_nan x = false.

(** The invariant of a valid box: [from_x <= to_x] and [from_y <= to_y]. *)
Definition invariant (b : BoundingBox) : Prop :=
  fle (from_x b) (to_x b) = true /\ fle (from_y b) (to_y b) = true.

(** A box of zero width or zero height. *)
Definition degenerate (b : BoundingBox) : bool :=
  feq (from_x b) (to_x b) || feq (from_y b) (to_y b).

(** [outer] contains [inner]. *)
Definition contains (outer inner : BoundingBox) : Prop :=
  fle (from_x outer) (from_x inner) = true
  /\ fle (to_x inner) (to_x outer) = true
  /\ fle (from_y outer) (from_y inner) = true
  /\ fle (to_y inner) (to_y outer) = true.

(** [r] is the smaller ([min]) or the larger ([max]) of [x] and [y]. *)
Definition is_min (r x y : float) : Prop :=
  (r = x \/ r = y) /\ fle r x = true /\ fle r y = true.

Definition is_max (r x y : float) : Prop :=
  (r = x \/ r = y) /\ fle x r = true /\ fle y r = true.

(** The two error kinds of the specification, as the exceptions the code
    raises for them. *)
Definition ValidationError (e : exn) : Prop :=
  exists msg, e = StringRaised msg.

Definition ParseError (e : exn) : Prop :=
  e = IndexError \/ e = ValueError.


End Spec.

(** ** Sample values *)

Module Sample.
Import Py BBox.

(** The float a literal denotes. *)
Definition lit (s : string) : float :=
  match float_of_string s with
  | Some x => x
  | None => S754_nan
  end.

Definition f0 : float := Eval vm_compute in lit "0".
Definition f1 : float := Eval vm_compute in lit "1".
Definition f2 : float := Eval vm_compute in lit "2".
Definition f3 : float := Eval vm_compute in lit "3".
Definition f4 : float := Eval vm_compute in lit "4".
Definition f5 : float := Eval vm_compute in lit "5".
Definition f10 : float := Eval vm_compute in lit "10".
Definition f15 : float := Eval vm_compute in lit "15".
Definition f20 : float := Eval vm_compute in lit "20".
Definition f30 : float := Eval vm_compute in lit "30".

(** The tiles of the end-to-end scenarios, as [from_x, to_x, from_y, to_y]:
    [A = 0 10 0 10], [B = 5 15 5 15], [C = 20 30 20 30] and
    [T = 10 20 0 10], which touches [A] along [x = 10]. *)
Definition boxA : BoundingBox := mkBoundingBox f0 f0 f10 f10.
Definition boxB : BoundingBox := mkBoundingBox f5 f5 f15 f15.
Definition boxC : BoundingBox := mkBoundingBox f20 f20 f30 f30.
Definition boxT : BoundingBox := mkBoundingBox f10 f0 f20 f10.

(** The call made for the default file names of the script, on eight
    threads. *)
Definition sample_call : Match.call :=
  Match.match_sift_features_and_filter "tiles.json" "features.json"
    "./matches.json" "../target/render-0.0.1-SNAPSHOT.jar" None (Some 8).

(** A box of zero width. *)
Definition boxFlat : BoundingBox := mkBoundingBox f5 f0 f5 f10.

(** [-2^63] and [2^63], the floats of [-sys.maxint - 1] and of
    [sys.maxint]. *)
Definition m63 : float := Eval vm_compute in lit "-9223372036854775808".
Definition p63 : float := Eval vm_compute in lit "9223372036854775808".

(** The box [BoundingBox()] returns. *)
Definition boxDefault : BoundingBox := mkBoundingBox m63 m63 p63 p63.

(** A box beyond [2^63]: [1e19 2e19 0 1]. *)
Definition f1e19 : float := Eval vm_compute in lit "1e19".
Definition f2e19 : float := Eval vm_compute in lit "2e19".
Definition boxFar : BoundingBox := mkBoundingBox f1e19 f0 f2e19 f1.

(** A box with a bound of fourteen significant digits:
    [10000.123456789 12000 0 10], and what [str] keeps of that bound. *)
Definition fFrac : float := Eval vm_compute in lit "10000.123456789".
Definition fFrac12 : float := Eval vm_compute in lit "10000.1234568".
Definition f12000 : float := Eval vm_compute in lit "12000".

(** The tab character, as a string. *)
Definition tab : string := String (ascii_of_nat 9) "".

End Sample.

(** ** Further vocabulary: bounds, aggregates and special boxes *)

Module Derived.
Import Py BBox.

(** The bound [extend] leaves in a [from_] field and in a [to_] field. *)
Definition fmin (x y : float) : float := if fgt x y then y else x.
Definition fmax (x y : float) : float := if flt x y then y else x.

(** Equality of two boxes bound by bound, as [==] compares floats. *)
Definition same_bounds (a b : BoundingBox) : bool :=
  feq (from_x a) (from_x b) && feq (to_x a) (to_x b)
  && feq (from_y a) (from_y b) && feq (to_y a) (to_y b).

Definition has_nan (b : BoundingBox) : bool :=
  is_nan (from_x b) || is_nan (to_x b)
  || is_nan (from_y b) || is_nan (to_y b).

Definition finite_box (b : BoundingBox) : bool :=
  is_finite (from_x b) && is_finite (to_x b)
  && is_finite (from_y b) && is_finite (to_y b).


(** [for other in others: self.extend(other)] *)
Definition extend_each (self : BoundingBox) (others : list BoundingBox)
  : BoundingBox :=
  fold_left extend others self.

(** The box from minus infinity to infinity on both axes. *)
Definition boxInf : BoundingBox :=
  mkBoundingBox (S754_infinity true) (S754_infinity true)
    (S754_infinity false) (S754_infinity false).

(** The argument one pair of indices gives,
    ["--indices {}:{}".format(a, b)], and its two command-line words. *)
Definition pair_arg (ab : Z * Z) : string :=
  ("--indices " ++ str_of_Z (fst ab) ++ ":" ++ str_of_Z (snd ab))%string.


Definition pair_words (ab : Z * Z) : list string :=
  ["--indices"; (str_of_Z (fst ab) ++ ":" ++ str_of_Z (snd ab))%string].

End Derived.

(** ** [match_sift_features_and_filter.py]: [load_data_files] *)

Module Loader.
Import Py.

(** What [json.load] returns: [None], booleans, integers, floats,
    strings, lists, and dictionaries with string keys, listed in the order
    in which the dictionary is iterated. *)
#[warnings="-register-all"]
Inductive json : Type :=
  | JNull
  | JBool (b : bool)
  | JInt (n : Z)
  | JFloat (x : float)
  | JStr (s : string)
  | JList (l : list json)
  | JDict (d : list (string * json)).

(** The exceptions of [load_data_files]: [IOError] from [open],
    [ValueError] from [json.load], [KeyError] and [TypeError] from
    subscripting, iterating and hashing. *)
Inductive load_exn : Type :=
  | IOError
  | JSONValueError
  | KeyError (k : string)
  | TypeError.

Inductive outcome (A : Type) : Type :=
  | Done (a : A)
  | Fail (e : load_exn).

Arguments Done {A} a.
Arguments Fail {A} e.

Definition and_then {A B : Type} (r : outcome A) (k : A -> outcome B)
  : outcome B :=
  match r with
  | Done a => k a
  | Fail e => Fail e
  end.

(** [s.replace(old, '')] for a non-empty [old]: every occurrence of
    [old], found from left to right without overlap, is dropped.  [skip]
    counts the characters of an occurrence still to drop. *)
Fixpoint replace_from (skip : nat) (old s : string) : string :=
  match s with
  | EmptyString => ""
  | String c r =>
      match skip with
      | S k => replace_from k old r
      | O =>
          if prefix old s
          then replace_from (Nat.pred (String.length old)) old r
          else String c (replace_from 0 old r)
      end
  end.

Definition remove_all (old s : string) : string := replace_from 0 old s.


(** [o[k]] for a string [k]. *)
Fixpoint lookup (k : string) (d : list (string * json)) : option json :=
  match d with
  | [] => None
  | (k', v) :: r => if String.eqb k' k then Some v else lookup k r
  end.

Definition subscript (o : json) (k : string) : outcome json :=
  match o with
  | JDict d =>
      match lookup k d with
      | Some v => Done v
      | None => Fail (KeyError k)
      end
  | _ => Fail TypeError
  end.

(** The elements a [for] loop draws from [o]: the elements of a list, the
    keys of a dictionary, the characters of a string. *)
Definition iterate (o : json) : outcome (list json) :=
  match o with
  | JList l => Done l
  | JDict d => Done (map (fun kv => JStr (fst kv)) d)
  | JStr s => Done (map (fun c => JStr (String c "")) (list_ascii_of_string s))
  | _ => Fail TypeError
  end.

(** Keys of a Python dictionary.  Lists and dictionaries cannot be
    hashed. *)
Definition hashable (o : json) : bool :=
  match o with
  | JList _ | JDict _ => false
  | _ => true
  end.

(** The integer a float is equal to, if any. *)
Definition exact_Z (x : float) : option Z :=
  match x with
  | S754_zero _ => Some 0
  | S754_finite s m e =>
      let sign (z : Z) := if s then - z else z in
      if 0 <=? e then Some (sign (Z.pos m * 2 ^ e))
      else if Z.pos m mod 2 ^ (- e) =? 0
           then Some (sign (Z.pos m / 2 ^ (- e)))
           else None
  | _ => None
  end.

(** [a == b] for two hashable values: numbers compare by value, booleans
    being the integers 0 and 1; strings compare with strings, [None] with
    [None]. *)
Definition key_eqb (a b : json) : bool :=
  let num (o : json) : option (Z + float) :=
    match o with
    | JBool t => Some (inl (if t then 1 else 0))
    | JInt n => Some (inl n)
    | JFloat x => Some (inr x)
    | _ => None
    end in
  match a, b with
  | JNull, JNull => true
  | JStr u, JStr v => String.eqb u v
  | _, _ =>
      match num a, num b with
      | Some (inl m), Some (inl n) => m =? n
      | Some (inr x), Some (inr y) => feq x y
      | Some (inl m), Some (inr y) =>
          match exact_Z y with Some n => m =? n | None => false end
      | Some (inr x), Some (inl n) =>
          match exact_Z x with Some m => m =? n | None => false end
      | _, _ => false
      end
  end.

(** A dictionary as its entries; [d[k] = v] keeps the key of an entry it
    overwrites. *)
Definition pydict : Type := list (json * Z).

Fixpoint dict_set (d : pydict) (k : json) (v : Z) : pydict :=
  match d with
  | [] => [(k, v)]
  | (k', v') :: r =>
      if key_eqb k' k then (k', v) :: r else (k', v') :: dict_set r k v
  end.

Fixpoint dict_get (d : pydict) (k : json) : option Z :=
  match d with
  | [] => None
  | (k', v) :: r => if key_eqb k' k then Some v else dict_get r k
  end.

(** [ft["mipmapLevels"]["0"]["imageUrl"]] *)
Definition image_url (ft : json) : outcome json :=
  and_then (subscript ft "mipmapLevels") (fun a =>
  and_then (subscript a "0") (fun b =>
  subscript b "imageUrl")).

(** The dictionary comprehension
    [{ft[...]: idx for idx, ft in enumerate(features)}], from index [idx]
    on and with the entries [d] made so far. *)
Fixpoint index_features (fts : list json) (idx : Z) (d : pydict)
  : outcome pydict :=
  match fts with
  | [] => Done d
  | ft :: rest =>
      and_then (image_url ft) (fun u =>
      if hashable u then index_features rest (idx + 1) (dict_set d u idx)
      else Fail TypeError)
  end.

Section Files.
(** [read_json path] stands for what [json.load] makes of the file that
    [open(path)] opens, or the exception of either: the module [json] and
    the file system are not part of the sources. *)
Variable read_json : string -> outcome json.

(** [load_data_files] *)
Definition load_data_files (tile_file features_file : string)
  : outcome (json * pydict) :=
  let tile_file := remove_all "file://" tile_file in
  and_then (read_json tile_file) (fun tilespecs =>
  let features_file := remove_all "file://" features_file in
  and_then (read_json features_file) (fun features =>
  and_then (iterate features) (fun fts =>
  and_then (index_features fts 0 []) (fun indices =>
  Done (tilespecs, indices))))).
End Files.

(** The feature entry of a tile with the given image. *)
Definition feature_of (url : string) : json :=
  JDict [("mipmapLevels", JDict [("0", JDict [("imageUrl", JStr url)])])].

(** The last position of [u] in [us]. *)
Fixpoint last_pos (u : string) (us : list string) : option nat :=
  match us with
  | [] => None
  | v :: rest =>
      match last_pos u rest with
      | Some j => Some (S j)
      | None => if String.eqb v u then Some O else None
      end
  end.

End Loader.

(** ** Facts about float comparison *)

Module FloatFacts.
Import Py Spec.

Ltac cmp_cases :=
  repeat match goal with
    | H : context [Z.compare ?a ?b] |- _ =>
        destruct (Z.compare_spec a b); simpl in H
    | |- context [Z.compare ?a ?b] =>
        destruct (Z.compare_spec a b); simpl
    | H : context [Pos.compare_cont Eq ?a ?b] |- _ =>
        change (Pos.compare_cont Eq a b) with (Pos.compare a b) in H;
        destruct (Pos.compare_spec a b); simpl in H
    | |- context [Pos.compare_cont Eq ?a ?b] =>
        change (Pos.compare_cont Eq a b) with (Pos.compare a b);
        destruct (Pos.compare_spec a b); simpl
    end;
  try discriminate; try reflexivity; try lia.

Ltac by_compare x y :=
  unfold fle, flt, fgt, feq in *; destruct (SFcompare x y) as [[]|];
  try discriminate; try reflexivity; auto.

Lemma SFcompare_antisym (x y : float) :
  SFcompare y x = option_map CompOpp (SFcompare x y).
Proof.
  destruct x as [sx|sx| |sx mx ex], y as [sy|sy| |sy my ey]; simpl;
    try reflexivity;
    try (destruct sx; reflexivity); try (destruct sy; reflexivity);
    try (destruct sx, sy; reflexivity).
  destruct sx, sy; simpl; try reflexivity; f_equal; cmp_cases.
Qed.

Lemma SFcompare_number (x y : float) :
  number x -> number y -> exists c, SFcompare x y = Some c.
Proof.
  unfold number.
  destruct x, y; simpl; intros; try discriminate; eexists; reflexivity.
Qed.

Lemma SFcompare_some_number (x y : float) (c : comparison) :
  SFcompare x y = Some c -> number x /\ number y.
Proof.
  unfold number. destruct x, y; simpl; intros; try discriminate; auto.
Qed.

Lemma SFcompare_refl (x : float) : number x -> SFcompare x x = Some Eq.
Proof.
  unfold number. destruct x as [sx|sx| |sx mx ex]; simpl; intros;
    try discriminate; try reflexivity.
  - destruct sx; reflexivity.
  - destruct sx; rewrite Z.compare_refl;
      change (Pos.compare_cont Eq mx mx) with (Pos.compare mx mx);
      rewrite Pos.compare_refl; reflexivity.
Qed.

(** The sample floats are doubles in canonical form. *)
Example sample_floats_canonical :
  forallb (valid_binary prec emax)
    [Sample.f0; Sample.f1; Sample.f2; Sample.f3; Sample.f4; Sample.f5;
     Sample.f10; Sample.f15; Sample.f20; Sample.f30; Sample.m63; Sample.p63;
     Sample.f1e19; Sample.f2e19; Sample.fFrac; Sample.fFrac12;
     Sample.f12000] = true.
Proof. vm_compute. reflexivity. Qed.

(** [float(sys.maxint)] is [2^63], one more than [sys.maxint]. *)
Example float_of_maxint :
  float_of_Z maxint = Some Sample.p63
  /\ float_of_Z (maxint + 1) = Some Sample.p63
  /\ float_of_Z (- maxint - 1) = Some Sample.m63.
Proof. repeat split. Qed.

(** [x > y] and [y < x] are the same test. *)
Lemma fgt_flt (x y : float) : fgt x y = flt y x.
Proof.
  unfold fgt, flt. rewrite (SFcompare_antisym y x).
  destruct (SFcompare y x) as [[]|]; reflexivity.
Qed.

Lemma feq_sym (x y : float) : feq x y = feq y x.
Proof.
  unfold feq. rewrite (SFcompare_antisym y x).
  destruct (SFcompare y x) as [[]|]; reflexivity.
Qed.

Lemma fle_flt_feq (x y : float) : fle x y = flt x y || feq x y.
Proof. by_compare x y. Qed.

Lemma flt_fle (x y : float) : flt x y = true -> fle x y = true.
Proof. by_compare x y. Qed.

Lemma feq_fle (x y : float) : feq x y = true -> fle x y = true.
Proof. by_compare x y. Qed.

Lemma feq_not_flt (x y : float) : feq x y = true -> flt x y = false.
Proof. by_compare x y. Qed.

Lemma feq_not_fgt (x y : float) : feq x y = true -> fgt x y = false.
Proof. by_compare x y. Qed.

Lemma fle_not_fgt (x y : float) : fle x y = true -> fgt x y = false.
Proof. by_compare x y. Qed.

Lemma fgt_not_fle (x y : float) : fgt x y = true -> fle x y = false.
Proof. by_compare x y. Qed.

Lemma fle_not_feq_flt (x y : float) :
  fle x y = true -> feq x y = false -> flt x y = true.
Proof. by_compare x y. Qed.

Lemma fle_number (x y : float) : fle x y = true -> number x /\ number y.
Proof.
  unfold fle. destruct (SFcompare x y) as [c|] eqn:E; try discriminate.
  intros _. exact (SFcompare_some_number x y c E).
Qed.

Lemma flt_number (x y : float) : flt x y = true -> number x /\ number y.
Proof. intros H. apply fle_number, flt_fle, H. Qed.

Lemma fle_refl (x : float) : number x -> fle x x = true.
Proof. intros H. unfold fle. rewrite (SFcompare_refl x H). reflexivity. Qed.

(** Two numbers are always comparable. *)
Lemma not_fgt_fle (x y : float) :
  number x -> number y -> fgt x y = false -> fle x y = true.
Proof.
  intros Hx Hy. destruct (SFcompare_number x y Hx Hy) as [c E].
  unfold fgt, fle. rewrite E. destruct c; auto.
Qed.

Lemma not_flt_fle (x y : float) :
  number x -> number y -> flt x y = false -> fle y x = true.
Proof. intros Hx Hy H. apply not_fgt_fle; auto. rewrite fgt_flt. exact H. Qed.

Lemma fle_trans (x y z : float) :
  fle x y = true -> fle y z = true -> fle x z = true.
Proof.
  unfold fle.
  destruct x as [sx|sx| |sx mx ex], y as [sy|sy| |sy my ey],
           z as [sz|sz| |sz mz ez]; simpl; try discriminate; try reflexivity;
    try (destruct sx); try (destruct sy); try (destruct sz); simpl;
    try discriminate; try reflexivity; intros H1 H2; cmp_cases.
Qed.

Lemma flt_fle_trans (x y z : float) :
  flt x y = true -> fle y z = true -> flt x z = true.
Proof.
  unfold fle, flt.
  destruct x as [sx|sx| |sx mx ex], y as [sy|sy| |sy my ey],
           z as [sz|sz| |sz mz ez]; simpl; try discriminate; try reflexivity;
    try (destruct sx); try (destruct sy); try (destruct sz); simpl;
    try discriminate; try reflexivity; intros H1 H2; cmp_cases.
Qed.

Lemma fle_flt_trans (x y z : float) :
  fle x y = true -> flt y z = true -> flt x z = true.
Proof.
  unfold fle, flt.
  destruct x as [sx|sx| |sx mx ex], y as [sy|sy| |sy my ey],
           z as [sz|sz| |sz mz ez]; simpl; try discriminate; try reflexivity;
    try (destruct sx); try (destruct sy); try (destruct sz); simpl;
    try discriminate; try reflexivity; intros H1 H2; cmp_cases.
Qed.

End FloatFacts.

(** ** Facts about strings *)

Module StringFacts.
Import Py.

Lemma has_char_app (c : ascii) (s t : string) :
  has_char c (s ++ t) = has_char c s || has_char c t.
Proof.
  induction s as [|d s IH]; simpl; [reflexivity|].
  rewrite IH, orb_assoc. reflexivity.
Qed.

Lemma split_cons (sep : ascii) (s : string) :
  exists t ts, split sep s = t :: ts.
Proof.
  induction s as [|c s (t & ts & IH)]; simpl.
  - eexists; eexists; reflexivity.
  - destruct (Ascii.eqb c sep); [eexists; eexists; reflexivity|].
    rewrite IH. eexists; eexists; reflexivity.
Qed.

(** A string without the separator is one field. *)
Lemma split_one (sep : ascii) (t : string) :
  has_char sep t = false -> split sep t = [t].
Proof.
  induction t as [|c t IH]; simpl; [reflexivity|].
  intros H. apply orb_false_iff in H. destruct H as [Hc Ht].
  rewrite Hc, (IH Ht). reflexivity.
Qed.

(** A field ends at the first separator. *)
Lemma split_app (sep : ascii) (t r : string) :
  has_char sep t = false ->
  split sep (t ++ String sep r) = t :: split sep r.
Proof.
  induction t as [|c t IH]; simpl.
  - intros _. rewrite Ascii.eqb_refl. reflexivity.
  - intros H. apply orb_false_iff in H. destruct H as [Hc Ht].
    rewrite Hc, (IH Ht). reflexivity.
Qed.

(** Splitting undoes joining when no field holds the separator. *)
Lemma split_join (sep : ascii) (t : string) (ts : list string) :
  Forall (fun u => has_char sep u = false) (t :: ts) ->
  split sep (join (String sep "") (t :: ts)) = t :: ts.
Proof.
  revert t. induction ts as [|u us IH]; intros t H.
  - simpl. apply split_one. inversion H; assumption.
  - inversion H as [|? ? Ht Hrest]; subst.
    change (join (String sep "") (t :: u :: us))
      with (t ++ String sep (join (String sep "") (u :: us)))%string.
    rewrite (split_app sep t _ Ht), (IH u Hrest). reflexivity.
Qed.

(** *** The text of a float has no space *)

Lemma digit_char_no_space (d : Z) :
  0 <= d < 10 -> Ascii.eqb (digit_char d) " " = false.
Proof.
  intros H.
  assert (E : d = 0 \/ d = 1 \/ d = 2 \/ d = 3 \/ d = 4 \/ d = 5 \/ d = 6
              \/ d = 7 \/ d = 8 \/ d = 9) by lia.
  repeat (destruct E as [-> | E]; [reflexivity|]). subst d. reflexivity.
Qed.

Lemma decimal_fuel_no_space (fuel : nat) (n : Z) (acc : string) :
  has_char " " acc = false ->
  has_char " " (decimal_fuel fuel n acc) = false.
Proof.
  revert n acc. induction fuel as [|f IH]; intros n acc H; simpl; [exact H|].
  assert (H' : has_char " " (String (digit_char (n mod 10)) acc) = false).
  { simpl. rewrite digit_char_no_space, H; [reflexivity|].
    apply Z.mod_pos_bound. lia. }
  destruct (n <? 10); [exact H'|]. apply IH, H'.
Qed.

Lemma decimal_no_space (n : Z) : has_char " " (decimal n) = false.
Proof. apply decimal_fuel_no_space. reflexivity. Qed.

Lemma rstrip0_no_space (s : string) :
  has_char " " s = false -> has_char " " (rstrip0 s) = false.
Proof.
  induction s as [|c s IH]; simpl; [auto|].
  intros H. apply orb_false_iff in H. destruct H as [Hc Hs].
  specialize (IH Hs). destruct (rstrip0 s) as [|d r].
  - destruct (Ascii.eqb c "0"); simpl; [reflexivity|].
    rewrite Hc. reflexivity.
  - change (has_char " " (String c (String d r)))
      with (Ascii.eqb c " " || has_char " " (String d r)).
    rewrite Hc, IH. reflexivity.
Qed.

Lemma zeros_no_space (n : nat) : has_char " " (zeros n) = false.
Proof. induction n; simpl; auto. Qed.

Lemma substring_no_space (s : string) (n m : nat) :
  has_char " " s = false -> has_char " " (substring n m s) = false.
Proof.
  revert n m. induction s as [|c s IH]; intros n m H.
  - destruct n, m; reflexivity.
  - simpl in H. apply orb_false_iff in H. destruct H as [Hc Hs].
    destruct n as [|n]; simpl.
    + destruct m as [|m]; simpl; [reflexivity|].
      rewrite Hc. apply IH, Hs.
    + apply IH, Hs.
Qed.

Lemma format_g_no_space (digits : string) (decpt : Z) :
  has_char " " digits = false -> has_char " " (format_g digits decpt) = false.
Proof.
  intros H. unfold format_g.
  destruct ((decpt <=? -4) || (str_precision - 1 <? decpt)).
  - rewrite !has_char_app, decimal_no_space.
    assert (Hm : has_char " "
                   match digits with
                   | String d EmptyString => String d ""
                   | String d rest => String d ("." ++ rest)
                   | EmptyString => ""
                   end = false).
    { destruct digits as [|d [|d' r]]; simpl in *; auto. }
    rewrite Hm. destruct (decpt - 1 <? 0), (Z.abs (decpt - 1) <? 10);
      reflexivity.
  - destruct (decpt <=? 0).
    + rewrite !has_char_app, zeros_no_space, H. reflexivity.
    + destruct (decpt <? Z.of_nat (String.length digits)).
      * rewrite !has_char_app, !substring_no_space by exact H. reflexivity.
      * rewrite !has_char_app, zeros_no_space, H. reflexivity.
Qed.

Lemma float_str_no_space (x : float) : has_char " " (float_str x) = false.
Proof.
  destruct x as [s|s| |s m e]; simpl; try (destruct s; reflexivity);
    try reflexivity.
  destruct (dtoa str_precision m e) as [n decpt].
  assert (H : has_char " " (format_g (rstrip0 (decimal n)) decpt) = false)
    by (apply format_g_no_space, rstrip0_no_space, decimal_no_space).
  set (body := format_g (rstrip0 (decimal n)) decpt) in *.
  destruct s; simpl; exact H.
Qed.

End StringFacts.

(** ** Facts about the text of a float *)

Module FormatFacts.
Import Py Derived.

(** *** Powers of ten and the decimal exponent *)













(** *** Rounding to twelve digits *)




(** *** The digits written *)







End FormatFacts.

(** ** Facts about [BoundingBox] *)

Module BBoxFacts.
Import Py BBox Spec Sample FloatFacts StringFacts FormatFacts.

(** *** Validity *)

Lemma invariant_numbers (b : BoundingBox) :
  invariant b ->
  number (from_x b) /\ number (to_x b) /\ number (from_y b) /\ number (to_y b).
Proof.
  intros [Hx Hy]. apply fle_number in Hx, Hy. tauto.
Qed.

(** A box that satisfies the invariant passes [validate]. *)
Lemma invariant_validate (b : BoundingBox) : invariant b -> validate b = true.
Proof.
  intros [Hx Hy]. unfold validate.
  rewrite (fle_not_fgt _ _ Hx), (fle_not_fgt _ _ Hy). reflexivity.
Qed.

(** On boxes whose bounds are numbers, [validate] decides the invariant. *)
Lemma validate_invariant (b : BoundingBox) :
  number (from_x b) -> number (to_x b) ->
  number (from_y b) -> number (to_y b) ->
  validate b = true -> invariant b.
Proof.
  intros Nfx Ntx Nfy Nty. unfold validate.
  destruct (fgt (from_x b) (to_x b)) eqn:Ex; simpl; try discriminate.
  destruct (fgt (from_y b) (to_y b)) eqn:Ey; simpl; try discriminate.
  intros _. split; apply not_fgt_fle; assumption.
Qed.

(** A box with a NaN bound passes [validate] without satisfying the
    invariant. *)
Example validate_nan :
  let b := mkBoundingBox S754_nan f0 f1 f1 in
  validate b = true /\ ~ invariant b.
Proof.
  split; [reflexivity|]. intros [H _]. discriminate H.
Qed.

(** *** [overlap] *)

Lemma overlap_true_iff (a b : BoundingBox) :
  overlap a b = true <->
  flt (from_x a) (to_x b) = true /\ fgt (to_x a) (from_x b) = true /\
  flt (from_y a) (to_y b) = true /\ fgt (to_y a) (from_y b) = true.
Proof.
  unfold overlap.
  destruct (flt (from_x a) (to_x b)), (fgt (to_x a) (from_x b)),
    (flt (from_y a) (to_y b)), (fgt (to_y a) (from_y b)); simpl;
    split; try tauto; try discriminate;
    intros (H1 & H2 & H3 & H4); discriminate.
Qed.

(** C2. [a.overlap(b)] is true exactly when the four strict comparisons
    [a.from_x < b.to_x], [a.to_x > b.from_x], [a.from_y < b.to_y] and
    [a.to_y > b.from_y] hold; two boxes that share an edge coordinate
    ([a.to_x == b.from_x], and likewise for the three other edges) do not
    overlap.  This holds for all boxes, valid or not. *)
Theorem overlap_strict (a b : BoundingBox) :
  (overlap a b = true <->
     flt (from_x a) (to_x b) = true /\ fgt (to_x a) (from_x b) = true /\
     flt (from_y a) (to_y b) = true /\ fgt (to_y a) (from_y b) = true)
  /\ (feq (to_x a) (from_x b) = true -> overlap a b = false)
  /\ (feq (from_x a) (to_x b) = true -> overlap a b = false)
  /\ (feq (to_y a) (from_y b) = true -> overlap a b = false)
  /\ (feq (from_y a) (to_y b) = true -> overlap a b = false).
Proof.
  split; [apply overlap_true_iff|]. unfold overlap. repeat split.
  - intros H. rewrite (feq_not_fgt _ _ H).
    rewrite andb_false_r. reflexivity.
  - intros H. rewrite (feq_not_flt _ _ H). reflexivity.
  - intros H. rewrite (feq_not_fgt _ _ H).
    rewrite andb_false_r. reflexivity.
  - intros H. rewrite (feq_not_flt _ _ H).
    rewrite !andb_false_r. reflexivity.
Qed.

(** The scenario of the specification: [A = 0 10 0 10] and
    [T = 10 20 0 10] are both constructed and do not overlap. *)
Example touching_tiles :
  fromList [PyInt 0; PyInt 10; PyInt 0; PyInt 10] = Ok boxA
  /\ fromList [PyInt 10; PyInt 20; PyInt 0; PyInt 10] = Ok boxT
  /\ overlap boxA boxT = false /\ overlap boxT boxA = false.
Proof. repeat split; vm_compute; reflexivity. Qed.

Example overlapping_tiles :
  overlap boxA boxB = true /\ overlap boxA boxC = false
  /\ overlap boxB boxC = false.
Proof. repeat split; vm_compute; reflexivity. Qed.

(** C8. [a.overlap(b) == b.overlap(a)], for all boxes. *)
Theorem overlap_symmetric (a b : BoundingBox) : overlap a b = overlap b a.
Proof.
  unfold overlap. rewrite !fgt_flt.
  destruct (flt (from_x a) (to_x b)), (flt (from_x b) (to_x a)),
    (flt (from_y a) (to_y b)), (flt (from_y b) (to_y a)); reflexivity.
Qed.

(** C9. For a valid box [a], [a.overlap(a)] is true unless [a] is
    degenerate ([from_x == to_x] or [from_y == to_y]), and false when it
    is. *)
Theorem overlap_self (a : BoundingBox) :
  invariant a ->
  (degenerate a = false -> overlap a a = true)
  /\ (degenerate a = true -> overlap a a = false).
Proof.
  intros [Hx Hy]. unfold degenerate, overlap. rewrite !fgt_flt. split.
  - intros H. apply orb_false_iff in H. destruct H as [Ex Ey].
    rewrite (fle_not_feq_flt _ _ Hx Ex), (fle_not_feq_flt _ _ Hy Ey).
    reflexivity.
  - intros H. apply orb_true_iff in H. destruct H as [E|E];
      rewrite (feq_not_flt _ _ E); simpl; rewrite ?andb_false_r; reflexivity.
Qed.

Lemma overlap_self_witness :
  (invariant boxA /\ degenerate boxA = false /\ overlap boxA boxA = true)
  /\ (invariant boxFlat /\ degenerate boxFlat = true
      /\ overlap boxFlat boxFlat = false).
Proof.
  assert (HA : invariant boxA) by (split; reflexivity).
  assert (HF : invariant boxFlat) by (split; reflexivity).
  split.
  - split; [exact HA|]. split; [reflexivity|].
    apply (proj1 (overlap_self boxA HA)). reflexivity.
  - split; [exact HF|]. split; [reflexivity|].
    apply (proj2 (overlap_self boxFlat HF)). reflexivity.
Defined.

(** *** [extend] *)

Lemma extend_fields (a b : BoundingBox) :
  from_x (extend a b) = (if fgt (from_x a) (from_x b) then from_x b else from_x a)
  /\ from_y (extend a b) = (if fgt (from_y a) (from_y b) then from_y b else from_y a)
  /\ to_x (extend a b) = (if flt (to_x a) (to_x b) then to_x b else to_x a)
  /\ to_y (extend a b) = (if flt (to_y a) (to_y b) then to_y b else to_y a).
Proof.
  unfold extend.
  destruct (fgt (from_x a) (from_x b)); simpl;
    destruct (fgt (from_y a) (from_y b)); simpl;
    destruct (flt (to_x a) (to_x b)); simpl;
    destruct (flt (to_y a) (to_y b)); simpl; auto.
Qed.

Lemma pick_min (x y : float) :
  number x -> number y -> is_min (if fgt x y then y else x) x y.
Proof.
  intros Hx Hy. unfold is_min. destruct (fgt x y) eqn:E.
  - split; [auto|]. split.
    + apply flt_fle. rewrite <- fgt_flt. exact E.
    + apply fle_refl, Hy.
  - split; [auto|]. split.
    + apply fle_refl, Hx.
    + apply not_fgt_fle; assumption.
Qed.

Lemma pick_max (x y : float) :
  number x -> number y -> is_max (if flt x y then y else x) x y.
Proof.
  intros Hx Hy. unfold is_max. destruct (flt x y) eqn:E.
  - split; [auto|]. split.
    + apply flt_fle, E.
    + apply fle_refl, Hy.
  - split; [auto|]. split.
    + apply fle_refl, Hx.
    + apply not_flt_fle; assumption.
Qed.

(** Extending with a contained box assigns nothing. *)
Lemma extend_contained (a b : BoundingBox) : contains a b -> extend a b = a.
Proof.
  intros (H1 & H2 & H3 & H4). unfold extend.
  rewrite (fle_not_fgt _ _ H1). simpl.
  rewrite (fle_not_fgt _ _ H3). simpl.
  apply fle_not_fgt in H2, H4. rewrite fgt_flt in H2, H4.
  rewrite H2. simpl. rewrite H4. reflexivity.
Qed.

(** C6. For valid boxes [a] and [b], [a.extend(b)] leaves in [a] the
    smaller of the two [from_x] and of the two [from_y] and the larger of
    the two [to_x] and of the two [to_y]; that box contains [a] and [b] and
    is contained in every box that contains both; it is valid; and when
    [a] already contains [b] the call changes nothing. *)
Theorem extend_union (a b : BoundingBox) :
  invariant a -> invariant b ->
  let r := extend a b in
  is_min (from_x r) (from_x a) (from_x b)
  /\ is_min (from_y r) (from_y a) (from_y b)
  /\ is_max (to_x r) (to_x a) (to_x b)
  /\ is_max (to_y r) (to_y a) (to_y b)
  /\ contains r a /\ contains r b
  /\ (forall c, contains c a -> contains c b -> contains c r)
  /\ invariant r
  /\ (contains a b -> r = a).
Proof.
  intros Ha Hb r.
  destruct (invariant_numbers a Ha) as (Na1 & Na2 & Na3 & Na4).
  destruct (invariant_numbers b Hb) as (Nb1 & Nb2 & Nb3 & Nb4).
  destruct (extend_fields a b) as (E1 & E2 & E3 & E4).
  assert (M1 : is_min (from_x r) (from_x a) (from_x b))
    by (unfold r; rewrite E1; apply pick_min; assumption).
  assert (M2 : is_min (from_y r) (from_y a) (from_y b))
    by (unfold r; rewrite E2; apply pick_min; assumption).
  assert (M3 : is_max (to_x r) (to_x a) (to_x b))
    by (unfold r; rewrite E3; apply pick_max; assumption).
  assert (M4 : is_max (to_y r) (to_y a) (to_y b))
    by (unfold r; rewrite E4; apply pick_max; assumption).
  repeat (split; [assumption|]).
  destruct M1 as (C1 & L1a & L1b), M2 as (C2 & L2a & L2b),
           M3 as (C3 & L3a & L3b), M4 as (C4 & L4a & L4b).
  destruct Ha as [Hax Hay].
  split; [repeat split; assumption|].
  split; [repeat split; assumption|].
  split.
  - intros c (A1 & A2 & A3 & A4) (B1 & B2 & B3 & B4). unfold contains.
    destruct C1 as [-> | ->], C2 as [-> | ->], C3 as [-> | ->],
             C4 as [-> | ->]; auto.
  - split.
    + split.
      * apply fle_trans with (from_x a); [assumption|].
        apply fle_trans with (to_x a); assumption.
      * apply fle_trans with (from_y a); [assumption|].
        apply fle_trans with (to_y a); assumption.
    + apply extend_contained.
Qed.

Lemma extend_union_witness :
  let r := extend boxA boxB in
  invariant boxA /\ invariant boxB
  /\ r = mkBoundingBox f0 f0 f15 f15
  /\ invariant r
  /\ contains boxA boxFlat /\ extend boxA boxFlat = boxA.
Proof.
  assert (HA : invariant boxA) by (split; reflexivity).
  assert (HB : invariant boxB) by (split; reflexivity).
  assert (HF : invariant boxFlat) by (split; reflexivity).
  assert (HC : contains boxA boxFlat) by (repeat split).
  split; [exact HA|]. split; [exact HB|]. split; [reflexivity|].
  split; [exact (proj1 (proj2 (proj2 (proj2 (proj2 (proj2 (proj2
            (proj2 (extend_union boxA boxB HA HB)))))))))|].
  split; [exact HC|].
  exact (proj2 (proj2 (proj2 (proj2 (proj2 (proj2 (proj2
            (proj2 (extend_union boxA boxFlat HA HF)))))))) HC).
Defined.

(** *** The constructor *)

Lemma init_floats (a b c d : value) (fx tx fy ty : float) :
  py_float a = Ok fx -> py_float b = Ok tx ->
  py_float c = Ok fy -> py_float d = Ok ty ->
  new a b c d =
    (let self := mkBoundingBox fx fy tx ty in
     if negb (validate self) then Raise (StringRaised (invalid_message self))
     else Ok self).
Proof.
  intros Ha Hb Hc Hd. unfold new, init, bind.
  rewrite Ha, Hb, Hc, Hd. reflexivity.
Qed.

(** C3. When the four arguments convert to floats,
    [BoundingBox(from_x, to_x, from_y, to_y)] raises its validation error
    exactly when [from_x > to_x] or [from_y > to_y] and returns the box
    with those four bounds otherwise; and when the four floats are numbers,
    a box that violates [from_x <= to_x] and [from_y <= to_y] is never
    returned. *)
Theorem new_validates (a b c d : value) (fx tx fy ty : float) :
  py_float a = Ok fx -> py_float b = Ok tx ->
  py_float c = Ok fy -> py_float d = Ok ty ->
  ((fgt fx tx = true \/ fgt fy ty = true) <->
     exists e, new a b c d = Raise e /\ ValidationError e)
  /\ ((fgt fx tx = false /\ fgt fy ty = false) <->
        new a b c d = Ok (mkBoundingBox fx fy tx ty))
  /\ (number fx -> number tx -> number fy -> number ty ->
      forall box, new a b c d = Ok box -> invariant box).
Proof.
  intros Ha Hb Hc Hd.
  rewrite (init_floats a b c d fx tx fy ty Ha Hb Hc Hd).
  unfold validate; simpl.
  destruct (fgt fx tx) eqn:Ex, (fgt fy ty) eqn:Ey; simpl;
    (split; [|split]);
    try (split; [intros _; eexists; split; [reflexivity|eexists; reflexivity]
                | auto]);
    try (split; [intros [? ?]; discriminate | discriminate]);
    try (intros _ _ _ _ box Hbox; discriminate Hbox).
  - split; [intros [?|?]; discriminate|].
    intros (e & He & _). discriminate.
  - split; auto.
  - intros Nfx Ntx Nfy Nty box Hbox. injection Hbox as <-.
    split; simpl; apply not_fgt_fle; assumption.
Qed.

Lemma new_validates_witness :
  new (PyInt 0) (PyInt 10) (PyFloat f0) (PyStr "10") = Ok boxA
  /\ (exists e, new (PyInt 5) (PyInt 2) (PyInt 0) (PyInt 1) = Raise e
                /\ ValidationError e)
  /\ (forall box, new (PyInt 0) (PyInt 10) (PyFloat f0) (PyStr "10") = Ok box
                  -> invariant box).
Proof.
  split; [|split].
  - apply (proj1 (proj2 (new_validates (PyInt 0) (PyInt 10) (PyFloat f0)
                           (PyStr "10") f0 f10 f0 f10
                           eq_refl eq_refl eq_refl eq_refl))).
    split; reflexivity.
  - apply (proj1 (new_validates (PyInt 5) (PyInt 2) (PyInt 0) (PyInt 1)
                    f5 f2 f0 f1 eq_refl eq_refl eq_refl eq_refl)).
    left. reflexivity.
  - exact (proj2 (proj2 (new_validates (PyInt 0) (PyInt 10) (PyFloat f0)
                           (PyStr "10") f0 f10 f0 f10
                           eq_refl eq_refl eq_refl eq_refl))
             eq_refl eq_refl eq_refl eq_refl).
Defined.

(** *** [fromList] and [fromStr] *)

Lemma fromList_four (a b c d : value) (rest : list value) :
  fromList (a :: b :: c :: d :: rest) = new a b c d.
Proof. reflexivity. Qed.

Lemma fromList_short (l : list value) :
  (List.length l < 4)%nat -> fromList l = Raise IndexError.
Proof.
  destruct l as [|a [|b [|c [|d rest]]]]; simpl; intros H;
    try reflexivity; lia.
Qed.

Lemma new_ok (a b c d : value) (fx tx fy ty : float) :
  py_float a = Ok fx -> py_float b = Ok tx ->
  py_float c = Ok fy -> py_float d = Ok ty ->
  fle fx tx = true -> fle fy ty = true ->
  new a b c d = Ok (mkBoundingBox fx fy tx ty).
Proof.
  intros Ha Hb Hc Hd Hx Hy.
  rewrite (init_floats a b c d fx tx fy ty Ha Hb Hc Hd). simpl.
  rewrite (invariant_validate (mkBoundingBox fx fy tx ty)); [reflexivity|].
  split; assumption.
Qed.

Lemma py_float_str (t : string) (x : float) :
  float_of_string t = Some x -> py_float (PyStr t) = Ok x.
Proof. intros H. simpl. rewrite H. reflexivity. Qed.

(** C10. [fromList] reads the elements at positions 0 to 3 and nothing
    else: when they convert to floats with element 0 [<=] element 1 and
    element 2 [<=] element 3, the box with these bounds is returned whatever
    follows in the list; hence a string whose fields, cut at each space,
    are more than four is parsed from its first four fields. *)
Theorem fromList_first_four :
  (forall (a b c d : value) (rest : list value) (fx tx fy ty : float),
      py_float a = Ok fx -> py_float b = Ok tx ->
      py_float c = Ok fy -> py_float d = Ok ty ->
      fle fx tx = true -> fle fy ty = true ->
      fromList (a :: b :: c :: d :: rest) = Ok (mkBoundingBox fx fy tx ty)
      /\ fromList (a :: b :: c :: d :: rest) = fromList [a; b; c; d])
  /\ (forall (s t0 t1 t2 t3 : string) (more : list string)
             (fx tx fy ty : float),
      split " " s = t0 :: t1 :: t2 :: t3 :: more ->
      float_of_string t0 = Some fx -> float_of_string t1 = Some tx ->
      float_of_string t2 = Some fy -> float_of_string t3 = Some ty ->
      fle fx tx = true -> fle fy ty = true ->
      fromStr s = Ok (mkBoundingBox fx fy tx ty)).
Proof.
  split.
  - intros a b c d rest fx tx fy ty Ha Hb Hc Hd Hx Hy. split.
    + rewrite fromList_four. apply new_ok; assumption.
    + reflexivity.
  - intros s t0 t1 t2 t3 more fx tx fy ty Hs H0 H1 H2 H3 Hx Hy.
    unfold fromStr. rewrite Hs. simpl map. rewrite fromList_four.
    apply new_ok; auto using py_float_str.
Qed.

Lemma fromList_first_four_witness :
  fromList [PyInt 0; PyFloat f10; PyStr "0"; PyInt 10; PyStr "junk"; PyInt 7]
    = Ok boxA
  /\ fromStr "0 10 0 10 25 abc" = Ok boxA.
Proof.
  split.
  - exact (proj1 (proj1 fromList_first_four (PyInt 0) (PyFloat f10)
                    (PyStr "0") (PyInt 10) [PyStr "junk"; PyInt 7]
                    f0 f10 f0 f10 eq_refl eq_refl eq_refl eq_refl
                    eq_refl eq_refl)).
  - exact (proj2 fromList_first_four "0 10 0 10 25 abc" "0" "10" "0" "10"
             ["25"; "abc"] f0 f10 f0 f10 eq_refl eq_refl eq_refl eq_refl
             eq_refl eq_refl eq_refl).
Defined.

(** The claim C4 as it is written fails: a string of five numeric fields
    is parsed, and so is one whose fifth field is no number. *)
Lemma fromStr_five_fields :
  List.length (split " " "1 2 3 4 5") = 5%nat
  /\ fromStr "1 2 3 4 5" = Ok (mkBoundingBox f1 f3 f2 f4)
  /\ List.length (split " " "1 2 3 4 x") = 5%nat
  /\ fromStr "1 2 3 4 x" = Ok (mkBoundingBox f1 f3 f2 f4)
  /\ ~ (forall s : string,
          List.length (split " " s) <> 4%nat ->
          exists e, fromStr s = Raise e /\ ParseError e).
Proof.
  split; [vm_compute; reflexivity|].
  split; [vm_compute; reflexivity|].
  split; [vm_compute; reflexivity|].
  split; [vm_compute; reflexivity|].
  intros H. destruct (H "1 2 3 4 5") as (e & He & _).
  - vm_compute. discriminate.
  - vm_compute in He. discriminate.
Qed.

(** C4, amended. [fromStr] cuts the string at every space character and
    reads the first four fields as [from_x], [to_x], [from_y], [to_y].  It
    raises [IndexError] when there are fewer than four fields and
    [ValueError] when one of the first four is not the text of a float;
    otherwise it behaves as the constructor on the four floats.  Fields
    after the fourth are not looked at. *)
Theorem fromStr_fields (s : string) :
  ((List.length (split " " s) < 4)%nat ->
     fromStr s = Raise IndexError /\ ParseError IndexError)
  /\ (forall (t0 t1 t2 t3 : string) (more : list string),
        split " " s = t0 :: t1 :: t2 :: t3 :: more ->
        ((float_of_string t0 = None \/ float_of_string t1 = None
          \/ float_of_string t2 = None \/ float_of_string t3 = None) ->
           fromStr s = Raise ValueError /\ ParseError ValueError)
        /\ (forall fx tx fy ty : float,
              float_of_string t0 = Some fx -> float_of_string t1 = Some tx ->
              float_of_string t2 = Some fy -> float_of_string t3 = Some ty ->
              fromStr s
              = new (PyFloat fx) (PyFloat tx) (PyFloat fy) (PyFloat ty))).
Proof.
  split.
  - intros H. split; [|left; reflexivity].
    unfold fromStr. apply fromList_short. rewrite length_map. exact H.
  - intros t0 t1 t2 t3 more Hs. unfold fromStr. rewrite Hs. simpl map.
    rewrite fromList_four. split.
    + intros H. split; [|right; reflexivity].
      unfold new, init, bind, py_float, or_raise.
      destruct (float_of_string t0); [|reflexivity].
      destruct (float_of_string t1); [|reflexivity].
      destruct (float_of_string t2); [|reflexivity].
      destruct (float_of_string t3); [|reflexivity].
      destruct H as [H|[H|[H|H]]]; discriminate H.
    + intros fx tx fy ty H0 H1 H2 H3.
      rewrite (init_floats (PyStr t0) (PyStr t1) (PyStr t2) (PyStr t3)
                 fx tx fy ty) by (apply py_float_str; assumption).
      rewrite (init_floats (PyFloat fx) (PyFloat tx) (PyFloat fy)
                 (PyFloat ty) fx tx fy ty) by reflexivity.
      reflexivity.
Qed.

Lemma fromStr_fields_witness :
  fromStr "1 2 3" = Raise IndexError
  /\ fromStr "a b c d" = Raise ValueError
  /\ fromStr "0 10 0 10" = new (PyFloat f0) (PyFloat f10) (PyFloat f0)
                             (PyFloat f10)
  /\ fromStr ("0" ++ tab ++ "10" ++ tab ++ "0" ++ tab ++ "10")
     = Raise IndexError.
Proof.
  split; [|split; [|split]].
  - exact (proj1 (proj1 (fromStr_fields "1 2 3")
                    (proj1 (Nat.ltb_lt 3 4) eq_refl))).
  - exact (proj1 (proj1 (proj2 (fromStr_fields "a b c d") "a" "b" "c" "d" []
                           eq_refl) (or_introl eq_refl))).
  - exact (proj2 (proj2 (fromStr_fields "0 10 0 10") "0" "10" "0" "10" []
                    eq_refl) f0 f10 f0 f10 eq_refl eq_refl eq_refl eq_refl).
  - exact (proj1 (proj1 (fromStr_fields
                           ("0" ++ tab ++ "10" ++ tab ++ "0" ++ tab ++ "10"))
                    (proj1 (Nat.ltb_lt 1 4) eq_refl))).
Defined.

(** *** [toStr] and back *)

Lemma split_toStr (b : BoundingBox) :
  split " " (toStr b)
  = [float_str (from_x b); float_str (to_x b);
     float_str (from_y b); float_str (to_y b)].
Proof.
  change (toStr b)
    with (join " " [float_str (from_x b); float_str (to_x b);
                    float_str (from_y b); float_str (to_y b)]).
  apply split_join. repeat constructor; apply float_str_no_space.
Qed.




(** *** The default box *)

(** The claim C7 as it is written fails: the box that [BoundingBox()]
    returns ends at [2^63], short of the valid box [1e19 2e19 0 1], which
    it does not overlap. *)
Lemma default_misses_far_box :
  default = Ok boxDefault
  /\ invariant boxFar /\ degenerate boxFar = false
  /\ is_finite (from_x boxFar) && is_finite (to_x boxFar)
     && is_finite (from_y boxFar) && is_finite (to_y boxFar) = true
  /\ flt (to_x boxDefault) (from_x boxFar) = true
  /\ overlap boxDefault boxFar = false
  /\ ~ (forall box b : BoundingBox,
          default = Ok box -> invariant b -> degenerate b = false ->
          overlap box b = true).
Proof.
  split; [vm_compute; reflexivity|].
  split; [split; vm_compute; reflexivity|].
  split; [vm_compute; reflexivity|].
  split; [vm_compute; reflexivity|].
  split; [vm_compute; reflexivity|].
  split; [vm_compute; reflexivity|].
  intros H.
  assert (E : overlap boxDefault boxFar = true).
  { apply H; [|split|]; vm_compute; reflexivity. }
  vm_compute in E. discriminate E.
Qed.

(** C7, amended.  [BoundingBox()] returns the box from [-2^63] to [2^63] on
    both axes (the floats of [-sys.maxint - 1] and [sys.maxint]).  It
    overlaps a box [b] exactly when [-2^63 < b.to_x], [b.from_x < 2^63],
    [-2^63 < b.to_y] and [b.from_y < 2^63]; so it overlaps every valid
    box that is not degenerate and lies between [-2^63] and [2^63] on
    both axes. *)
Theorem default_overlap :
  default = Ok boxDefault
  /\ (forall b : BoundingBox,
        overlap boxDefault b = true <->
        flt m63 (to_x b) = true /\ flt (from_x b) p63 = true /\
        flt m63 (to_y b) = true /\ flt (from_y b) p63 = true)
  /\ (forall b : BoundingBox,
        invariant b -> degenerate b = false ->
        fle m63 (from_x b) = true -> fle (to_x b) p63 = true ->
        fle m63 (from_y b) = true -> fle (to_y b) p63 = true ->
        overlap boxDefault b = true).
Proof.
  assert (Hiff : forall b : BoundingBox,
            overlap boxDefault b = true <->
            flt m63 (to_x b) = true /\ flt (from_x b) p63 = true /\
            flt m63 (to_y b) = true /\ flt (from_y b) p63 = true).
  { intros b. rewrite overlap_true_iff, !fgt_flt. reflexivity. }
  split; [vm_compute; reflexivity|]. split; [exact Hiff|].
  intros b [Hx Hy] Hd L1 L2 L3 L4. apply Hiff.
  unfold degenerate in Hd. apply orb_false_iff in Hd. destruct Hd as [Dx Dy].
  pose proof (fle_not_feq_flt _ _ Hx Dx) as Sx.
  pose proof (fle_not_feq_flt _ _ Hy Dy) as Sy.
  repeat split.
  - exact (fle_flt_trans _ _ _ L1 Sx).
  - exact (flt_fle_trans _ _ _ Sx L2).
  - exact (fle_flt_trans _ _ _ L3 Sy).
  - exact (flt_fle_trans _ _ _ Sy L4).
Qed.

Lemma default_overlap_witness :
  invariant boxA /\ degenerate boxA = false /\ overlap boxDefault boxA = true.
Proof.
  assert (HA : invariant boxA) by (split; reflexivity).
  split; [exact HA|]. split; [reflexivity|].
  apply (proj2 (proj2 default_overlap) boxA HA); reflexivity.
Defined.

End BBoxFacts.

(** ** Facts about the selection of tile pairs *)

Module MatchFacts.
Import Py BBox Match Spec Sample.

Example indices_of_pairs :
  indices (mkCall "t.json" "f.json" "r.jar" "m.json"
             (Some [(0, 1); (1, 12)]) None (Some 4))
  = "--indices 0:1 --indices 1:12"
  /\ threads_str (mkCall "t.json" "f.json" "r.jar" "m.json"
                    (Some [(0, 1); (1, 12)]) None (Some 4))
     = "--threads 4".
Proof. split; vm_compute; reflexivity. Qed.



End MatchFacts.

(** ** Further facts about floats *)

Module MoreFloatFacts.
Import Py Spec FloatFacts.

Lemma nan_compare_l (x y : float) : is_nan x = true -> SFcompare x y = None.
Proof. destruct x; simpl; try discriminate. reflexivity. Qed.

Lemma nan_compare_r (x y : float) : is_nan y = true -> SFcompare x y = None.
Proof. destruct y; simpl; try discriminate. destruct x; reflexivity. Qed.

Lemma nan_cases (x : float) : is_nan x = true \/ number x.
Proof. unfold number. destruct (is_nan x); auto. Qed.

Lemma flt_irrefl (x : float) : flt x x = false.
Proof.
  destruct (nan_cases x) as [H|H]; unfold flt.
  - rewrite (nan_compare_l x x H). reflexivity.
  - rewrite (SFcompare_refl x H). reflexivity.
Qed.

Lemma fgt_irrefl (x : float) : fgt x x = false.
Proof. rewrite fgt_flt. apply flt_irrefl. Qed.

Lemma flt_trans (x y z : float) :
  flt x y = true -> flt y z = true -> flt x z = true.
Proof. intros H1 H2. apply (flt_fle_trans x y z H1), flt_fle, H2. Qed.

Lemma flt_not_fgt (x y : float) : flt x y = true -> fgt x y = false.
Proof. by_compare x y. Qed.

Lemma fgt_not_flt (x y : float) : fgt x y = true -> flt x y = false.
Proof. by_compare x y. Qed.

Lemma not_flt_not_fgt_feq (x y : float) :
  number x -> number y -> flt x y = false -> fgt x y = false ->
  feq x y = true.
Proof.
  intros Hx Hy. destruct (SFcompare_number x y Hx Hy) as [c E].
  unfold flt, fgt, feq. rewrite E. destruct c; auto; discriminate.
Qed.

Lemma feq_refl (x : float) : number x -> feq x x = true.
Proof. intros H. unfold feq. rewrite (SFcompare_refl x H). reflexivity. Qed.

Lemma flt_nan_l (x y : float) : is_nan x = true -> flt x y = false.
Proof. intros H. unfold flt. rewrite (nan_compare_l x y H). reflexivity. Qed.

Lemma flt_nan_r (x y : float) : is_nan y = true -> flt x y = false.
Proof. intros H. unfold flt. rewrite (nan_compare_r x y H). reflexivity. Qed.

Lemma fgt_nan_l (x y : float) : is_nan x = true -> fgt x y = false.
Proof. intros H. unfold fgt. rewrite (nan_compare_l x y H). reflexivity. Qed.

Lemma fgt_nan_r (x y : float) : is_nan y = true -> fgt x y = false.
Proof. intros H. unfold fgt. rewrite (nan_compare_r x y H). reflexivity. Qed.

Lemma finite_above_minus_inf (x : float) :
  is_finite x = true -> flt (S754_infinity true) x = true.
Proof. destruct x; simpl; try discriminate; reflexivity. Qed.

Lemma finite_below_inf (x : float) :
  is_finite x = true -> flt x (S754_infinity false) = true.
Proof. destruct x; simpl; try discriminate; reflexivity. Qed.

Lemma finite_number (x : float) : is_finite x = true -> number x.
Proof. unfold number. destruct x; simpl; try discriminate; reflexivity. Qed.

End MoreFloatFacts.

(** ** Further facts about [BoundingBox] *)

Module MoreBBoxFacts.
Import Py BBox Spec Sample Derived.
Import FloatFacts MoreFloatFacts StringFacts BBoxFacts.

(** *** [overlap], the intersection and containment *)

Lemma strict_bounds (b : BoundingBox) :
  invariant b -> degenerate b = false ->
  flt (from_x b) (to_x b) = true /\ flt (from_y b) (to_y b) = true.
Proof.
  intros [Hx Hy] Hd. apply orb_false_iff in Hd. destruct Hd as [Dx Dy].
  split; apply fle_not_feq_flt; assumption.
Qed.

Lemma axis_intersection (x1 x2 y1 y2 : float) :
  flt x1 x2 = true -> flt y1 y2 = true ->
  (flt x1 y2 = true /\ flt y1 x2 = true <->
   flt (fmax x1 y1) (fmin x2 y2) = true).
Proof.
  intros Hx Hy.
  destruct (flt_number _ _ Hx) as [Nx1 Nx2].
  destruct (flt_number _ _ Hy) as [Ny1 Ny2].
  unfold fmax, fmin.
  destruct (flt x1 y1) eqn:A, (fgt x2 y2) eqn:B.
  - rewrite fgt_flt in B. split; [intros _; exact Hy|]. intros _. split.
    + exact (flt_trans _ _ _ A Hy).
    + exact (flt_trans _ _ _ Hy B).
  - split; [tauto|]. intros H. split; [|exact H].
    exact (flt_trans _ _ _ A Hy).
  - rewrite fgt_flt in B. split; [tauto|]. intros H. split; [exact H|].
    exact (flt_trans _ _ _ Hy B).
  - split; [intros _; exact Hx|]. intros _. split.
    + apply (flt_fle_trans _ _ _ Hx). apply not_fgt_fle; assumption.
    + apply (fle_flt_trans y1 x1 x2); [|exact Hx].
      apply not_flt_fle; assumption.
Qed.

(** X1. Two valid boxes that are not degenerate overlap exactly when the
    rectangle from the larger of their [from] bounds to the smaller of
    their [to] bounds has positive width and positive height. *)
Theorem overlap_intersection (a b : BoundingBox) :
  invariant a -> invariant b ->
  degenerate a = false -> degenerate b = false ->
  (overlap a b = true <->
   flt (fmax (from_x a) (from_x b)) (fmin (to_x a) (to_x b)) = true
   /\ flt (fmax (from_y a) (from_y b)) (fmin (to_y a) (to_y b)) = true).
Proof.
  intros Ha Hb Da Db.
  destruct (strict_bounds a Ha Da) as [Sax Say].
  destruct (strict_bounds b Hb Db) as [Sbx Sby].
  rewrite overlap_true_iff, !fgt_flt.
  rewrite <- (axis_intersection _ _ _ _ Sax Sbx).
  rewrite <- (axis_intersection _ _ _ _ Say Sby). tauto.
Qed.

Lemma overlap_intersection_witness :
  (overlap boxA boxB = true <->
   flt (fmax (from_x boxA) (from_x boxB)) (fmin (to_x boxA) (to_x boxB)) = true
   /\ flt (fmax (from_y boxA) (from_y boxB)) (fmin (to_y boxA) (to_y boxB))
      = true)
  /\ (overlap boxA boxT = true <->
      flt (fmax (from_x boxA) (from_x boxT)) (fmin (to_x boxA) (to_x boxT))
      = true
      /\ flt (fmax (from_y boxA) (from_y boxT)) (fmin (to_y boxA) (to_y boxT))
         = true).
Proof.
  split.
  - apply (overlap_intersection boxA boxB); try split; reflexivity.
  - apply (overlap_intersection boxA boxT); try split; reflexivity.
Defined.

(** X2. A box overlaps every valid, non-degenerate box it contains, and
    is overlapped by it: containment is a case of overlap, as the comment
    in [overlap] says. *)
Theorem contained_overlap (outer inner : BoundingBox) :
  contains outer inner -> invariant inner -> degenerate inner = false ->
  overlap outer inner = true /\ overlap inner outer = true.
Proof.
  intros (C1 & C2 & C3 & C4) Hi Di.
  destruct (strict_bounds inner Hi Di) as [Sx Sy].
  split; apply overlap_true_iff; rewrite !fgt_flt; repeat split.
  - exact (fle_flt_trans _ _ _ C1 Sx).
  - exact (flt_fle_trans _ _ _ Sx C2).
  - exact (fle_flt_trans _ _ _ C3 Sy).
  - exact (flt_fle_trans _ _ _ Sy C4).
  - exact (flt_fle_trans _ _ _ Sx C2).
  - exact (fle_flt_trans _ _ _ C1 Sx).
  - exact (flt_fle_trans _ _ _ Sy C4).
  - exact (fle_flt_trans _ _ _ C3 Sy).
Qed.

Lemma contained_overlap_witness :
  contains boxA boxA /\ overlap boxA boxA = true
  /\ contains (extend boxA boxB) boxB
  /\ overlap (extend boxA boxB) boxB = true.
Proof.
  assert (CA : contains boxA boxA) by (repeat split).
  assert (CB : contains (extend boxA boxB) boxB) by (repeat split).
  assert (IA : invariant boxA) by (split; reflexivity).
  assert (IB : invariant boxB) by (split; reflexivity).
  split; [exact CA|].
  split; [exact (proj1 (contained_overlap boxA boxA CA IA eq_refl))|].
  split; [exact CB|].
  exact (proj1 (contained_overlap (extend boxA boxB) boxB CB IB eq_refl)).
Defined.

(** X3. A box of zero width does overlap another box when its position
    lies strictly between the other's [from_x] and [to_x] and the two
    ranges in [y] overlap: the strict comparisons exclude a degenerate box
    from overlapping itself, not from overlapping others. *)
Theorem zero_width_overlap (a b : BoundingBox) :
  feq (from_x a) (to_x a) = true ->
  flt (from_x b) (from_x a) = true -> flt (to_x a) (to_x b) = true ->
  flt (from_y a) (to_y b) = true -> flt (from_y b) (to_y a) = true ->
  degenerate a = true /\ overlap a b = true /\ overlap b a = true.
Proof.
  intros E L R Y1 Y2.
  assert (A1 : flt (from_x a) (to_x b) = true)
    by exact (fle_flt_trans _ _ _ (feq_fle _ _ E) R).
  assert (A2 : flt (from_x b) (to_x a) = true)
    by exact (flt_fle_trans _ _ _ L (feq_fle _ _ E)).
  split; [unfold degenerate; rewrite E; reflexivity|].
  split; apply overlap_true_iff; rewrite !fgt_flt; auto.
Qed.

Lemma zero_width_overlap_witness :
  degenerate boxFlat = true
  /\ overlap boxFlat boxA = true /\ overlap boxA boxFlat = true.
Proof.
  apply (zero_width_overlap boxFlat boxA); reflexivity.
Defined.

(** X4. Overlap survives enlarging a box: when [big] contains [a] and [a]
    overlaps [b], then [big] overlaps [b]. *)
Theorem overlap_monotone (big a b : BoundingBox) :
  contains big a -> overlap a b = true -> overlap big b = true.
Proof.
  intros (C1 & C2 & C3 & C4) H.
  apply overlap_true_iff in H. rewrite !fgt_flt in H.
  destruct H as (H1 & H2 & H3 & H4).
  apply overlap_true_iff. rewrite !fgt_flt. repeat split.
  - exact (fle_flt_trans _ _ _ C1 H1).
  - exact (flt_fle_trans _ _ _ H2 C2).
  - exact (fle_flt_trans _ _ _ C3 H3).
  - exact (flt_fle_trans _ _ _ H4 C4).
Qed.

Lemma overlap_monotone_witness :
  contains (extend boxA boxC) boxA /\ overlap boxA boxB = true
  /\ overlap (extend boxA boxC) boxB = true.
Proof.
  assert (C : contains (extend boxA boxC) boxA) by (repeat split).
  split; [exact C|]. split; [reflexivity|].
  exact (overlap_monotone (extend boxA boxC) boxA boxB C eq_refl).
Defined.

(** *** [extend] *)

Lemma fmin_le_l (x y : float) : number x -> fle (fmin x y) x = true.
Proof.
  intros Hx. unfold fmin. destruct (fgt x y) eqn:E.
  - apply flt_fle. rewrite <- fgt_flt. exact E.
  - apply fle_refl, Hx.
Qed.

Lemma fmax_ge_l (x y : float) : number x -> fle x (fmax x y) = true.
Proof.
  intros Hx. unfold fmax. destruct (flt x y) eqn:E.
  - apply flt_fle, E.
  - apply fle_refl, Hx.
Qed.

Lemma extend_bounds (a b : BoundingBox) :
  from_x (extend a b) = fmin (from_x a) (from_x b)
  /\ from_y (extend a b) = fmin (from_y a) (from_y b)
  /\ to_x (extend a b) = fmax (to_x a) (to_x b)
  /\ to_y (extend a b) = fmax (to_y a) (to_y b).
Proof. exact (extend_fields a b). Qed.

(** X5. [a.extend(b)] never loses an overlap: a box that [a] overlapped
    before the call is overlapped after it, whatever [b] is. *)
Theorem extend_keeps_overlap (a b c : BoundingBox) :
  overlap a c = true -> overlap (extend a b) c = true.
Proof.
  intros H. apply overlap_true_iff in H. rewrite !fgt_flt in H.
  destruct H as (H1 & H2 & H3 & H4).
  destruct (extend_bounds a b) as (E1 & E2 & E3 & E4).
  apply overlap_true_iff. rewrite !fgt_flt, E1, E2, E3, E4.
  unfold fmin, fmax. repeat split.
  - destruct (fgt (from_x a) (from_x b)) eqn:E; [|exact H1].
    rewrite fgt_flt in E. exact (flt_trans _ _ _ E H1).
  - destruct (flt (to_x a) (to_x b)) eqn:E; [|exact H2].
    exact (flt_trans _ _ _ H2 E).
  - destruct (fgt (from_y a) (from_y b)) eqn:E; [|exact H3].
    rewrite fgt_flt in E. exact (flt_trans _ _ _ E H3).
  - destruct (flt (to_y a) (to_y b)) eqn:E; [|exact H4].
    exact (flt_trans _ _ _ H4 E).
Qed.

Lemma extend_keeps_overlap_witness :
  overlap boxA boxB = true /\ overlap (extend boxA boxC) boxB = true.
Proof.
  split; [reflexivity|].
  exact (extend_keeps_overlap boxA boxC boxB eq_refl).
Defined.

Lemma fmin_idem (x y : float) : fmin (fmin x y) y = fmin x y.
Proof.
  unfold fmin. destruct (fgt x y) eqn:E.
  - rewrite fgt_irrefl. reflexivity.
  - rewrite E. reflexivity.
Qed.

Lemma fmax_idem (x y : float) : fmax (fmax x y) y = fmax x y.
Proof.
  unfold fmax. destruct (flt x y) eqn:E.
  - rewrite flt_irrefl. reflexivity.
  - rewrite E. reflexivity.
Qed.

Lemma box_eq (a b : BoundingBox) :
  from_x a = from_x b -> from_y a = from_y b ->
  to_x a = to_x b -> to_y a = to_y b -> a = b.
Proof. destruct a, b; simpl; intros; subst; reflexivity. Qed.

(** X6. Extending twice with the same box is extending once, and
    extending a box with itself changes nothing; both hold for all
    boxes, NaN bounds included. *)
Theorem extend_idempotent (a b : BoundingBox) :
  extend (extend a b) b = extend a b /\ extend a a = a.
Proof.
  split.
  - destruct (extend_bounds (extend a b) b) as (E1 & E2 & E3 & E4).
    destruct (extend_bounds a b) as (F1 & F2 & F3 & F4).
    apply box_eq.
    + rewrite E1, F1. apply fmin_idem.
    + rewrite E2, F2. apply fmin_idem.
    + rewrite E3, F3. apply fmax_idem.
    + rewrite E4, F4. apply fmax_idem.
  - destruct (extend_bounds a a) as (E1 & E2 & E3 & E4).
    apply box_eq.
    + rewrite E1. unfold fmin. rewrite fgt_irrefl. reflexivity.
    + rewrite E2. unfold fmin. rewrite fgt_irrefl. reflexivity.
    + rewrite E3. unfold fmax. rewrite flt_irrefl. reflexivity.
    + rewrite E4. unfold fmax. rewrite flt_irrefl. reflexivity.
Qed.

Lemma fmin_comm (x y : float) :
  number x -> number y -> feq (fmin x y) (fmin y x) = true.
Proof.
  intros Hx Hy. unfold fmin.
  destruct (fgt x y) eqn:A, (fgt y x) eqn:B.
  - rewrite fgt_flt in B. rewrite (flt_not_fgt _ _ B) in A. discriminate.
  - apply feq_refl, Hy.
  - apply feq_refl, Hx.
  - rewrite fgt_flt in B. apply not_flt_not_fgt_feq; assumption.
Qed.

Lemma fmax_comm (x y : float) :
  number x -> number y -> feq (fmax x y) (fmax y x) = true.
Proof.
  intros Hx Hy. unfold fmax.
  destruct (flt x y) eqn:A, (flt y x) eqn:B.
  - rewrite <- fgt_flt in B. rewrite (flt_not_fgt _ _ A) in B. discriminate.
  - apply feq_refl, Hy.
  - apply feq_refl, Hx.
  - rewrite <- fgt_flt in B. apply not_flt_not_fgt_feq; assumption.
Qed.

(** X7. For valid boxes the order of the two operands of [extend] does
    not matter to the bounds: [a.extend(b)] and [b.extend(a)] leave boxes
    whose four bounds compare equal. *)
Theorem extend_commutes (a b : BoundingBox) :
  invariant a -> invariant b ->
  same_bounds (extend a b) (extend b a) = true.
Proof.
  intros Ha Hb.
  destruct (invariant_numbers a Ha) as (Na1 & Na2 & Na3 & Na4).
  destruct (invariant_numbers b Hb) as (Nb1 & Nb2 & Nb3 & Nb4).
  destruct (extend_bounds a b) as (E1 & E2 & E3 & E4).
  destruct (extend_bounds b a) as (F1 & F2 & F3 & F4).
  unfold same_bounds. rewrite E1, E2, E3, E4, F1, F2, F3, F4.
  rewrite !fmin_comm, !fmax_comm by assumption. reflexivity.
Qed.

Lemma extend_commutes_witness :
  same_bounds (extend boxA boxB) (extend boxB boxA) = true
  /\ extend boxA boxB = mkBoundingBox f0 f0 f15 f15.
Proof.
  split; [|reflexivity].
  apply (extend_commutes boxA boxB); split; reflexivity.
Defined.

(** The bounds compare equal, yet the boxes need not be the same: each
    call keeps its own zero when one box starts at [0.0] and the other at
    [-0.0]. *)
Example extend_signed_zero :
  let a := mkBoundingBox (S754_zero false) f0 f1 f1 in
  let b := mkBoundingBox (S754_zero true) f0 f1 f1 in
  from_x (extend a b) = S754_zero false
  /\ from_x (extend b a) = S754_zero true.
Proof. split; reflexivity. Qed.

Lemma extend_invariant (a b : BoundingBox) :
  invariant a -> invariant (extend a b).
Proof.
  intros Ha. destruct (invariant_numbers a Ha) as (N1 & N2 & N3 & N4).
  destruct Ha as [Hx Hy].
  destruct (extend_bounds a b) as (E1 & E2 & E3 & E4).
  split.
  - rewrite E1, E3. apply fle_trans with (from_x a); [apply fmin_le_l, N1|].
    apply fle_trans with (to_x a); [exact Hx|apply fmax_ge_l, N2].
  - rewrite E2, E4. apply fle_trans with (from_y a); [apply fmin_le_l, N3|].
    apply fle_trans with (to_y a); [exact Hy|apply fmax_ge_l, N4].
Qed.

Lemma extend_contains_self (a b : BoundingBox) :
  invariant a -> contains (extend a b) a.
Proof.
  intros Ha. destruct (invariant_numbers a Ha) as (N1 & N2 & N3 & N4).
  destruct (extend_bounds a b) as (E1 & E2 & E3 & E4).
  unfold contains. rewrite E1, E2, E3, E4.
  repeat split; auto using fmin_le_l, fmax_ge_l.
Qed.

(** X8. [extend] keeps a valid box valid and never shrinks it, whatever
    the other box is, be it invalid or made of NaN: the box after the call
    is valid and contains the box before the call. *)
Theorem extend_preserves_validity (a b : BoundingBox) :
  invariant a -> invariant (extend a b) /\ contains (extend a b) a.
Proof.
  intros Ha. split.
  - apply extend_invariant, Ha.
  - apply extend_contains_self, Ha.
Qed.

Lemma extend_preserves_validity_witness :
  invariant boxA
  /\ invariant (extend boxA (mkBoundingBox f30 S754_nan f5 (S754_infinity false))).
Proof.
  assert (HA : invariant boxA) by (split; reflexivity).
  split; [exact HA|].
  exact (proj1 (extend_preserves_validity boxA _ HA)).
Defined.

(** X9. A NaN bound is never taken over by [extend] and never given up:
    when the bound of either box is NaN, that bound of [self] is left as
    it was. *)
Theorem extend_ignores_nan (a b : BoundingBox) :
  (is_nan (from_x a) || is_nan (from_x b) = true ->
     from_x (extend a b) = from_x a)
  /\ (is_nan (from_y a) || is_nan (from_y b) = true ->
        from_y (extend a b) = from_y a)
  /\ (is_nan (to_x a) || is_nan (to_x b) = true ->
        to_x (extend a b) = to_x a)
  /\ (is_nan (to_y a) || is_nan (to_y b) = true ->
        to_y (extend a b) = to_y a).
Proof.
  destruct (extend_bounds a b) as (E1 & E2 & E3 & E4).
  rewrite E1, E2, E3, E4. unfold fmin, fmax.
  repeat split; intros H; apply orb_true_iff in H; destruct H as [H|H];
    rewrite ?(fgt_nan_l _ _ H), ?(fgt_nan_r _ _ H),
            ?(flt_nan_l _ _ H), ?(flt_nan_r _ _ H); reflexivity.
Qed.

Lemma extend_ignores_nan_witness :
  extend boxA (mkBoundingBox S754_nan S754_nan S754_nan S754_nan) = boxA
  /\ from_x (extend (mkBoundingBox S754_nan f0 f1 f1) boxA) = S754_nan.
Proof.
  split.
  - apply box_eq;
      apply (extend_ignores_nan boxA
               (mkBoundingBox S754_nan S754_nan S754_nan S754_nan));
      reflexivity.
  - apply (proj1 (extend_ignores_nan (mkBoundingBox S754_nan f0 f1 f1) boxA)).
    reflexivity.
Defined.

(** *** Growing a box over a list *)

Lemma contains_refl (b : BoundingBox) : invariant b -> contains b b.
Proof.
  intros H. destruct (invariant_numbers b H) as (N1 & N2 & N3 & N4).
  repeat split; apply fle_refl; assumption.
Qed.

Lemma contains_trans (a b c : BoundingBox) :
  contains a b -> contains b c -> contains a c.
Proof.
  intros (A1 & A2 & A3 & A4) (B1 & B2 & B3 & B4). repeat split.
  - exact (fle_trans _ _ _ A1 B1).
  - exact (fle_trans _ _ _ B2 A2).
  - exact (fle_trans _ _ _ A3 B3).
  - exact (fle_trans _ _ _ B4 A4).
Qed.

Lemma extend_contains_other (a b : BoundingBox) :
  invariant a -> invariant b -> contains (extend a b) b.
Proof.
  intros Ha Hb.
  destruct (invariant_numbers a Ha) as (Na1 & Na2 & Na3 & Na4).
  destruct (invariant_numbers b Hb) as (Nb1 & Nb2 & Nb3 & Nb4).
  destruct (extend_fields a b) as (E1 & E2 & E3 & E4).
  unfold contains. rewrite E1, E2, E3, E4. repeat split.
  - exact (proj2 (proj2 (pick_min _ _ Na1 Nb1))).
  - exact (proj2 (proj2 (pick_max _ _ Na2 Nb2))).
  - exact (proj2 (proj2 (pick_min _ _ Na3 Nb3))).
  - exact (proj2 (proj2 (pick_max _ _ Na4 Nb4))).
Qed.

Lemma extend_least (a b c : BoundingBox) :
  contains c a -> contains c b -> contains c (extend a b).
Proof.
  intros (A1 & A2 & A3 & A4) (B1 & B2 & B3 & B4).
  destruct (extend_fields a b) as (E1 & E2 & E3 & E4).
  unfold contains. rewrite E1, E2, E3, E4.
  destruct (fgt (from_x a) (from_x b)), (fgt (from_y a) (from_y b)),
    (flt (to_x a) (to_x b)), (flt (to_y a) (to_y b)); auto.
Qed.

(** X10. Extending a valid box in turn with each box of a list of valid
    boxes gives the bounding box of them all: a valid box that contains
    the first box and every box of the list, and that every box containing
    them all contains. *)
Theorem extend_each_bounding_box (a : BoundingBox) (bs : list BoundingBox) :
  invariant a -> Forall invariant bs ->
  invariant (extend_each a bs)
  /\ contains (extend_each a bs) a
  /\ Forall (contains (extend_each a bs)) bs
  /\ (forall c : BoundingBox,
        contains c a -> Forall (contains c) bs ->
        contains c (extend_each a bs)).
Proof.
  intros Ha Hbs. revert a Ha.
  induction Hbs as [|b bs Hb Hbs IH]; intros a Ha.
  - simpl. split; [exact Ha|]. split; [apply contains_refl, Ha|].
    split; [constructor|]. intros c Hc _. exact Hc.
  - pose proof (extend_invariant a b Ha) as He.
    destruct (IH (extend a b) He) as (I1 & I2 & I3 & I4).
    change (extend_each a (b :: bs)) with (extend_each (extend a b) bs).
    split; [exact I1|].
    split; [exact (contains_trans _ _ _ I2 (extend_contains_self a b Ha))|].
    split.
    + constructor; [|exact I3].
      exact (contains_trans _ _ _ I2 (extend_contains_other a b Ha Hb)).
    + intros c Hca Hcs. inversion Hcs as [|? ? Hcb Hcbs]; subst.
      apply I4; [|exact Hcbs]. apply extend_least; assumption.
Qed.

Lemma extend_each_bounding_box_witness :
  extend_each boxA [boxB; boxC; boxT] = mkBoundingBox f0 f0 f30 f30
  /\ invariant (extend_each boxA [boxB; boxC; boxT])
  /\ Forall (contains (extend_each boxA [boxB; boxC; boxT]))
       [boxB; boxC; boxT].
Proof.
  assert (HA : invariant boxA) by (split; reflexivity).
  assert (HL : Forall invariant [boxB; boxC; boxT])
    by (repeat constructor).
  split; [reflexivity|].
  split; [exact (proj1 (extend_each_bounding_box boxA _ HA HL))|].
  exact (proj1 (proj2 (proj2 (extend_each_bounding_box boxA _ HA HL)))).
Defined.

(** *** NaN and infinite bounds *)

(** X11. A box with a NaN bound overlaps no box and is overlapped by
    none; so two boxes that overlap have no NaN bound. *)
Theorem nan_never_overlaps (a b : BoundingBox) :
  (has_nan a = true -> overlap a b = false /\ overlap b a = false)
  /\ (overlap a b = true -> has_nan a = false /\ has_nan b = false).
Proof.
  assert (K : forall u v : BoundingBox,
             overlap u v = true -> has_nan u = false /\ has_nan v = false).
  { intros u v H. apply overlap_true_iff in H. rewrite !fgt_flt in H.
    destruct H as (H1 & H2 & H3 & H4).
    apply flt_number in H1, H2, H3, H4. unfold number in *.
    unfold has_nan.
    destruct H1 as [-> ->], H2 as [-> ->], H3 as [-> ->], H4 as [-> ->].
    split; reflexivity. }
  split; [|apply K].
  intros Hn. split.
  - destruct (overlap a b) eqn:E; [|reflexivity].
    destruct (K a b E) as [Ha _]. rewrite Ha in Hn. discriminate.
  - destruct (overlap b a) eqn:E; [|reflexivity].
    destruct (K b a E) as [_ Ha]. rewrite Ha in Hn. discriminate.
Qed.

Lemma nan_never_overlaps_witness :
  overlap (mkBoundingBox f0 S754_nan f10 f10) boxA = false
  /\ has_nan boxA = false /\ has_nan boxB = false.
Proof.
  split.
  - apply (proj1 (nan_never_overlaps (mkBoundingBox f0 S754_nan f10 f10)
                    boxA)). reflexivity.
  - apply (proj2 (nan_never_overlaps boxA boxB)). reflexivity.
Defined.

(** X12. The constructor lets NaN through: when [from_x] or [to_x]
    converts to NaN, the [x] bounds pass validation whatever the other
    one is, and the box is returned as soon as the [y] bounds pass; the
    box returned violates [from_x <= to_x]. *)
Theorem nan_passes_validation (a b c d : value) (fx tx fy ty : float) :
  py_float a = Ok fx -> py_float b = Ok tx ->
  py_float c = Ok fy -> py_float d = Ok ty ->
  is_nan fx || is_nan tx = true -> fgt fy ty = false ->
  new a b c d = Ok (mkBoundingBox fx fy tx ty)
  /\ ~ invariant (mkBoundingBox fx fy tx ty).
Proof.
  intros Ha Hb Hc Hd Hn Hy.
  assert (Hx : fgt fx tx = false).
  { apply orb_true_iff in Hn. destruct Hn as [H|H];
      [apply fgt_nan_l | apply fgt_nan_r]; exact H. }
  split.
  - rewrite (init_floats a b c d fx tx fy ty Ha Hb Hc Hd).
    unfold validate. simpl. rewrite Hx, Hy. reflexivity.
  - intros [H _]. simpl in H. apply fle_number in H. unfold number in H.
    destruct H as [H1 H2]. rewrite H1, H2 in Hn. discriminate.
Qed.

Lemma nan_passes_validation_witness :
  fromStr "nan 1 0 10" = Ok (mkBoundingBox S754_nan f0 f1 f10)
  /\ ~ invariant (mkBoundingBox S754_nan f0 f1 f10).
Proof.
  exact (nan_passes_validation (PyStr "nan") (PyStr "1") (PyStr "0")
           (PyStr "10") S754_nan f1 f0 f10
           eq_refl eq_refl eq_refl eq_refl eq_refl eq_refl).
Defined.

(** X13. The box from minus infinity to infinity is accepted by the
    constructor, and it overlaps and contains every box with finite
    bounds, degenerate ones included; extending it changes nothing. *)
Theorem infinite_box_overlaps_all (b : BoundingBox) :
  fromStr "-inf inf -inf inf" = Ok boxInf
  /\ (finite_box b = true ->
      overlap boxInf b = true /\ overlap b boxInf = true
      /\ contains boxInf b /\ extend boxInf b = boxInf).
Proof.
  split; [reflexivity|].
  unfold finite_box. intros H.
  apply andb_true_iff in H. destruct H as [H H4].
  apply andb_true_iff in H. destruct H as [H H3].
  apply andb_true_iff in H. destruct H as [H1 H2].
  assert (C : contains boxInf b).
  { repeat split; simpl; apply flt_fle;
      auto using finite_above_minus_inf, finite_below_inf. }
  split; [|split; [|split; [exact C|apply extend_contained, C]]].
  - apply overlap_true_iff. rewrite !fgt_flt. simpl.
    auto using finite_above_minus_inf, finite_below_inf.
  - apply overlap_true_iff. rewrite !fgt_flt. simpl.
    auto using finite_above_minus_inf, finite_below_inf.
Qed.

Lemma infinite_box_overlaps_all_witness :
  finite_box boxFlat = true
  /\ overlap boxInf boxFlat = true /\ extend boxInf boxFar = boxInf.
Proof.
  split; [reflexivity|]. split.
  - exact (proj1 (proj2 (infinite_box_overlaps_all boxFlat) eq_refl)).
  - exact (proj2 (proj2 (proj2 (proj2 (infinite_box_overlaps_all boxFar)
                                   eq_refl)))).
Defined.

(** *** Constructors, lists and strings *)

Lemma py_float_not_IndexError (v : value) : py_float v <> Raise IndexError.
Proof.
  destruct v as [n|x|t]; simpl.
  - destruct (float_of_Z n); discriminate.
  - discriminate.
  - destruct (float_of_string t); discriminate.
Qed.

Lemma new_not_IndexError (a b c d : value) : new a b c d <> Raise IndexError.
Proof.
  unfold new, init, bind.
  pose proof (py_float_not_IndexError a) as Ha.
  pose proof (py_float_not_IndexError b) as Hb.
  pose proof (py_float_not_IndexError c) as Hc.
  pose proof (py_float_not_IndexError d) as Hd.
  destruct (py_float a) as [fx|e]; [|congruence].
  destruct (py_float b) as [tx|e]; [|congruence].
  destruct (py_float c) as [fy|e]; [|congruence].
  destruct (py_float d) as [ty|e]; [|congruence].
  destruct (negb (validate (mkBoundingBox fx fy tx ty))); discriminate.
Qed.

(** X14. [fromList] raises [IndexError] exactly when the list has fewer
    than four elements, whatever the elements are; with four or more it
    is the constructor on the first four. *)
Theorem fromList_IndexError (l : list value) :
  (fromList l = Raise IndexError <-> (List.length l < 4)%nat)
  /\ (forall a b c d rest, l = a :: b :: c :: d :: rest ->
        fromList l = new a b c d).
Proof.
  split.
  - split; [|apply fromList_short].
    destruct l as [|a [|b [|c [|d rest]]]]; simpl List.length;
      intros H; try lia.
    rewrite fromList_four in H. destruct (new_not_IndexError _ _ _ _ H).
  - intros a b c d rest ->. apply fromList_four.
Qed.

Lemma fromList_IndexError_witness :
  fromList [PyStr "x"; PyInt 9; PyInt 1] = Raise IndexError
  /\ fromList [PyInt 0; PyInt 10; PyInt 0; PyInt 10; PyInt 3] = Ok boxA.
Proof.
  split.
  - apply (proj1 (fromList_IndexError [PyStr "x"; PyInt 9; PyInt 1])).
    simpl. lia.
  - exact (proj2 (fromList_IndexError
                    [PyInt 0; PyInt 10; PyInt 0; PyInt 10; PyInt 3])
             _ _ _ _ _ eq_refl).
Defined.

(** X15. In the constructor a conversion error comes before validation:
    the first of [from_x], [to_x], [from_y], [to_y] that [float()] rejects
    decides the exception, whatever the other arguments are. *)
Theorem new_conversion_errors (a b c d : value) (e : exn) :
  (py_float a = Raise e -> new a b c d = Raise e)
  /\ (forall fx, py_float a = Ok fx -> py_float b = Raise e ->
        new a b c d = Raise e)
  /\ (forall fx tx, py_float a = Ok fx -> py_float b = Ok tx ->
        py_float c = Raise e -> new a b c d = Raise e)
  /\ (forall fx tx fy, py_float a = Ok fx -> py_float b = Ok tx ->
        py_float c = Ok fy -> py_float d = Raise e ->
        new a b c d = Raise e).
Proof.
  unfold new, init, bind. repeat split.
  - intros ->. reflexivity.
  - intros fx -> ->. reflexivity.
  - intros fx tx -> -> ->. reflexivity.
  - intros fx tx fy -> -> -> ->. reflexivity.
Qed.

Lemma new_conversion_errors_witness :
  new (PyInt 5) (PyStr "x") (PyInt (10 ^ 400)) (PyInt 1) = Raise ValueError
  /\ new (PyInt 5) (PyInt 2) (PyInt (10 ^ 400)) (PyStr "x")
     = Raise OverflowError.
Proof.
  split.
  - apply (proj1 (proj2 (new_conversion_errors (PyInt 5) (PyStr "x")
                           (PyInt (10 ^ 400)) (PyInt 1) ValueError)) f5);
      vm_compute; reflexivity.
  - apply (proj1 (proj2 (proj2 (new_conversion_errors (PyInt 5) (PyInt 2)
                           (PyInt (10 ^ 400)) (PyStr "x") OverflowError)))
             f5 f2); vm_compute; reflexivity.
Defined.

(** X16. Joining fields with single spaces and parsing the result is
    parsing the list of fields: [fromStr(" ".join(ts))] is [fromList(ts)]
    for every list of strings without a space. *)
Theorem fromStr_join (ts : list string) :
  Forall (fun u => has_char " " u = false) ts ->
  fromStr (join " " ts) = fromList (map PyStr ts).
Proof.
  intros H. unfold fromStr. destruct ts as [|t ts].
  - reflexivity.
  - rewrite (split_join " " t ts H). reflexivity.
Qed.

Lemma fromStr_join_witness :
  fromStr (join " " ["0"; "10"; "0"; "10"; "7"])
  = fromList [PyStr "0"; PyStr "10"; PyStr "0"; PyStr "10"; PyStr "7"].
Proof.
  apply (fromStr_join ["0"; "10"; "0"; "10"; "7"]).
  repeat constructor.
Defined.

(** X17. [toStr] is [toArray] written out: the four bounds as [str]
    prints them, joined by single spaces; cutting the text at its spaces
    gives back exactly these four fields, for every box, so reading it
    with [fromStr] never fails for want of a field. *)
Theorem toStr_fields (b : BoundingBox) :
  toStr b = join " " (map float_str (toArray b))
  /\ split " " (toStr b) = map float_str (toArray b)
  /\ List.length (split " " (toStr b)) = 4%nat
  /\ fromStr (toStr b) <> Raise IndexError.
Proof.
  split; [reflexivity|]. split; [apply split_toStr|].
  split; [rewrite split_toStr; reflexivity|].
  unfold fromStr. rewrite split_toStr. simpl map. rewrite fromList_four.
  apply new_not_IndexError.
Qed.

Lemma split_end (sep : ascii) (s : string) :
  split sep (s ++ String sep "") = List.app (split sep s) [""].
Proof.
  induction s as [|c s IH]; simpl.
  - rewrite Ascii.eqb_refl. reflexivity.
  - destruct (Ascii.eqb c sep); [rewrite IH; reflexivity|].
    rewrite IH. destruct (split_cons sep s) as (t & ts & ->). reflexivity.
Qed.

(** X18. A space at the front makes the first field empty, so such a
    string is never parsed; a space at the end only adds an empty field,
    which is not looked at when four fields come before it. *)
Theorem fromStr_outer_spaces (s : string) :
  (exists e, fromStr (String " " s) = Raise e /\ ParseError e)
  /\ ((4 <= List.length (split " " s))%nat ->
      fromStr (s ++ " ") = fromStr s).
Proof.
  split.
  - unfold fromStr. simpl split.
    destruct (split " " s) as [|t1 [|t2 [|t3 rest]]]; simpl;
      try (exists IndexError; split; [reflexivity|left; reflexivity]).
    exists ValueError. split; [reflexivity|right; reflexivity].
  - intros H. unfold fromStr. rewrite split_end.
    destruct (split " " s) as [|t0 [|t1 [|t2 [|t3 rest]]]];
      simpl in H; try lia. reflexivity.
Qed.

Lemma fromStr_outer_spaces_witness :
  fromStr " 0 10 0 10" = Raise ValueError
  /\ fromStr "0 10 0 10 " = fromStr "0 10 0 10".
Proof.
  split; [reflexivity|].
  apply (proj2 (fromStr_outer_spaces "0 10 0 10")). simpl. lia.
Defined.

(** X19. With only [from_x] given the other bounds take their defaults,
    and the box is returned exactly when [from_x] is not beyond [2^63];
    with only [to_x] given, exactly when [to_x] is not below [-2^63]. *)
Theorem one_bound_given (v : value) (x : float) :
  py_float v = Ok x ->
  (fgt x p63 = false ->
     init (Some v) None None None = Ok (mkBoundingBox x m63 p63 p63))
  /\ (fgt x p63 = true ->
        exists msg, init (Some v) None None None = Raise (StringRaised msg))
  /\ (fgt m63 x = false ->
        init None (Some v) None None = Ok (mkBoundingBox m63 m63 x p63))
  /\ (fgt m63 x = true ->
        exists msg, init None (Some v) None None = Raise (StringRaised msg)).
Proof.
  intros Hv.
  assert (Hm : py_float (PyInt (- maxint - 1)) = Ok m63) by reflexivity.
  assert (Hp : py_float (PyInt maxint) = Ok p63) by reflexivity.
  unfold init, bind. rewrite Hv, Hm, Hp. unfold validate. simpl.
  repeat split; intros H; rewrite H; simpl;
    try reflexivity; eexists; reflexivity.
Qed.

Lemma one_bound_given_witness :
  init (Some (PyInt 5)) None None None = Ok (mkBoundingBox f5 m63 p63 p63)
  /\ (exists msg, init (Some (PyStr "1e19")) None None None
                  = Raise (StringRaised msg)).
Proof.
  split.
  - apply (proj1 (one_bound_given (PyInt 5) f5 eq_refl)). reflexivity.
  - apply (proj1 (proj2 (one_bound_given (PyStr "1e19") f1e19 eq_refl))).
    reflexivity.
Defined.

(** *** [validate] and the order of the bounds *)

(** X27. For a box whose four bounds are numbers, [validate] returns
    true exactly when [from_x <= to_x] and [from_y <= to_y]; and whatever
    the bounds are, a box with [from_x <= to_x] and [from_y <= to_y]
    passes [validate]. *)
Theorem validate_decides_order (b : BoundingBox) :
  (invariant b -> validate b = true)
  /\ (number (from_x b) -> number (to_x b) ->
      number (from_y b) -> number (to_y b) ->
      (validate b = true <-> invariant b)).
Proof.
  split; [apply invariant_validate|].
  intros N1 N2 N3 N4. split.
  - apply validate_invariant; assumption.
  - apply invariant_validate.
Qed.

Lemma validate_decides_order_witness :
  validate boxA = true
  /\ (validate (mkBoundingBox f5 f0 f2 f1) = true
      <-> invariant (mkBoundingBox f5 f0 f2 f1)).
Proof.
  split.
  - apply (proj1 (validate_decides_order boxA)). split; reflexivity.
  - apply (proj2 (validate_decides_order (mkBoundingBox f5 f0 f2 f1)));
      reflexivity.
Defined.

End MoreBBoxFacts.

(** ** Further facts about the matcher's command line *)

Module MoreMatchFacts.
Import Py BBox Match Spec Sample Derived StringFacts.

Lemma str_of_Z_no_space (n : Z) : has_char " " (str_of_Z n) = false.
Proof.
  unfold str_of_Z. destruct (n <? 0).
  - rewrite has_char_app, decimal_no_space. reflexivity.
  - apply decimal_no_space.
Qed.

Lemma pair_words_no_space (ab : Z * Z) :
  Forall (fun u => has_char " " u = false) (pair_words ab).
Proof.
  unfold pair_words. repeat constructor.
  rewrite !has_char_app, !str_of_Z_no_space. reflexivity.
Qed.

Lemma join_pair_args (p : Z * Z) (l : list (Z * Z)) :
  join " " (map pair_arg (p :: l)) = join " " (flat_map pair_words (p :: l)).
Proof.
  revert p. induction l as [|q l IH]; intros p.
  - reflexivity.
  - change (join " " (map pair_arg (p :: q :: l)))
      with (pair_arg p ++ " " ++ join " " (map pair_arg (q :: l)))%string.
    rewrite (IH q). reflexivity.
Qed.

(** X20. The matcher is asked for all pairs exactly when no list of
    pairs is given: [indices] is [--all] if and only if [index_pairs] is
    [None].  An empty list is not [None]: it gives an empty argument,
    neither [--all] nor any [--indices].  Likewise [--threads] is absent
    exactly when [threads_num] is [None]. *)
Theorem all_iff_no_pairs (c : call) :
  (indices c = "--all" <-> index_pairs c = None)
  /\ (index_pairs c = Some [] -> indices c = "")
  /\ (threads_str c = "" <-> threads_num c = None).
Proof.
  unfold indices, threads_str. split; [|split].
  - destruct (index_pairs c) as [[|p l]|].
    + split; discriminate.
    + split; [|discriminate]. simpl.
      destruct (map _ l); simpl; discriminate.
    + split; reflexivity.
  - intros ->. reflexivity.
  - destruct (threads_num c) as [n|].
    + split; discriminate.
    + split; reflexivity.
Qed.

Lemma all_iff_no_pairs_witness :
  indices sample_call = "--all"
  /\ indices (mkCall "t" "f" "j" "o" (Some []) None None) = "".
Proof.
  split.
  - apply (proj1 (all_iff_no_pairs sample_call)). reflexivity.
  - apply (proj1 (proj2 (all_iff_no_pairs
                           (mkCall "t" "f" "j" "o" (Some []) None None)))).
    reflexivity.
Defined.

(** X21. A non-empty list of pairs gives two command-line words per
    pair, [--indices] and [a:b], in the order of the list: cutting
    [indices] at its spaces yields exactly these words. *)
Theorem indices_words (c : call) (p : Z * Z) (l : list (Z * Z)) :
  index_pairs c = Some (p :: l) ->
  split " " (indices c) = flat_map pair_words (p :: l)
  /\ List.length (split " " (indices c)) = (2 * List.length (p :: l))%nat.
Proof.
  intros H. unfold indices. rewrite H.
  change (join " " (map _ (p :: l))) with (join " " (map pair_arg (p :: l))).
  rewrite join_pair_args.
  assert (E : split " " (join " " (flat_map pair_words (p :: l)))
              = flat_map pair_words (p :: l)).
  { change (flat_map pair_words (p :: l))
      with ("--indices"
            :: (str_of_Z (fst p) ++ ":" ++ str_of_Z (snd p))%string
            :: flat_map pair_words l).
    apply split_join.
    change (Forall (fun u => has_char " " u = false)
              (flat_map pair_words (p :: l))).
    rewrite flat_map_concat_map. apply Forall_concat.
    apply Forall_map, Forall_forall. intros ab _.
    apply pair_words_no_space. }
  split; [exact E|]. rewrite E.
  generalize (p :: l). intros m. induction m as [|q m IH]; simpl; lia.
Qed.

Lemma indices_words_witness :
  split " " (indices (mkCall "t" "f" "j" "o" (Some [(0, 1); (3, 12)])
                        None None))
  = ["--indices"; "0:1"; "--indices"; "3:12"].
Proof.
  exact (proj1 (indices_words
                  (mkCall "t" "f" "j" "o" (Some [(0, 1); (3, 12)]) None None)
                  (0, 1) [(3, 12)] eq_refl)).
Defined.

End MoreMatchFacts.

(** ** Facts about [load_data_files] *)

Module LoaderFacts.
Import Py Loader.

(** *** Paths *)





(** X23. The two files are read in order and any failure ends the call:
    an exception for the tile file is raised whatever the feature file
    is, then one for the feature file; a feature file that holds a
    number, a boolean or [null] raises [TypeError]. *)
Theorem load_data_files_failures
    (read_json : string -> outcome json) (t f : string) (e : load_exn) :
  (read_json (remove_all "file://" t) = Fail e ->
     load_data_files read_json t f = Fail e)
  /\ (forall tiles, read_json (remove_all "file://" t) = Done tiles ->
        read_json (remove_all "file://" f) = Fail e ->
        load_data_files read_json t f = Fail e)
  /\ (forall tiles features,
        read_json (remove_all "file://" t) = Done tiles ->
        read_json (remove_all "file://" f) = Done features ->
        iterate features = Fail e ->
        e = TypeError /\ load_data_files read_json t f = Fail TypeError).
Proof.
  unfold load_data_files. split; [|split].
  - intros ->. reflexivity.
  - intros tiles -> ->. reflexivity.
  - intros tiles features -> -> H.
    assert (E : e = TypeError)
      by (destruct features; simpl in H; congruence).
    subst e. cbn [and_then]. rewrite H. split; reflexivity.
Qed.

Lemma load_data_files_failures_witness :
  load_data_files
    (fun p => if String.eqb p "t.json" then Done (JList []) else Done (JInt 3))
    "file://t.json" "f.json"
  = Fail TypeError.
Proof.
  exact (proj2 (proj2 (proj2 (load_data_files_failures
           (fun p => if String.eqb p "t.json" then Done (JList [])
                     else Done (JInt 3))
           "file://t.json" "f.json" TypeError))
           (JList []) (JInt 3) eq_refl eq_refl eq_refl)).
Defined.

(** *** The index of the features *)

Lemma key_eqb_str (k : json) (a : string) :
  key_eqb k (JStr a) = true -> k = JStr a.
Proof.
  destruct k as [| b | n | x | s | l | d]; simpl; try discriminate.
  intros H. apply String.eqb_eq in H. subst. reflexivity.
Qed.

Lemma dict_get_set_str (d : pydict) (a b : string) (v : Z) :
  dict_get (dict_set d (JStr a) v) (JStr b)
  = if String.eqb a b then Some v else dict_get d (JStr b).
Proof.
  induction d as [|[k0 v0] r IH]; simpl.
  - reflexivity.
  - destruct (key_eqb k0 (JStr a)) eqn:E1.
    + apply key_eqb_str in E1. subst k0. simpl.
      destruct (String.eqb a b); reflexivity.
    + simpl. destruct (key_eqb k0 (JStr b)) eqn:E2; [|exact IH].
      apply key_eqb_str in E2. subst k0. simpl in E1.
      rewrite String.eqb_sym, E1. reflexivity.
Qed.

Lemma dict_set_length_new (d : pydict) (k : json) (v : Z) :
  dict_get d k = None ->
  List.length (dict_set d k v) = S (List.length d).
Proof.
  induction d as [|[k0 v0] r IH]; simpl; [reflexivity|].
  destruct (key_eqb k0 k); [discriminate|].
  intros H. simpl. rewrite (IH H). reflexivity.
Qed.

Lemma last_pos_some (u : string) (us : list string) (j : nat) :
  last_pos u us = Some j ->
  nth_error us j = Some u
  /\ (forall i, (j < i)%nat -> nth_error us i <> Some u).
Proof.
  revert j. induction us as [|v us IH]; simpl; intros j H; [discriminate|].
  destruct (last_pos u us) as [j'|] eqn:E.
  - injection H as <-. destruct (IH j' eq_refl) as [H1 H2].
    split; [exact H1|]. intros [|i] Hi; [lia|]. simpl. apply H2. lia.
  - destruct (String.eqb v u) eqn:Ev; [|discriminate].
    injection H as <-. apply String.eqb_eq in Ev. subst v.
    split; [reflexivity|]. intros [|i] Hi; [lia|]. simpl.
    intros Hn. clear IH Hi. revert i Hn.
    induction us as [|w us IHus]; intros i Hn.
    + destruct i; discriminate.
    + simpl in E. destruct (last_pos u us) eqn:E'; [discriminate|].
      destruct (String.eqb w u) eqn:Ew; [discriminate|].
      destruct i as [|i]; simpl in Hn.
      * injection Hn as ->. rewrite String.eqb_refl in Ew. discriminate.
      * exact (IHus eq_refl i Hn).
Qed.

Lemma last_pos_none (u : string) (us : list string) :
  last_pos u us = None -> ~ In u us.
Proof.
  induction us as [|v us IH]; simpl; intros H; [tauto|].
  destruct (last_pos u us); [discriminate|].
  destruct (String.eqb v u) eqn:Ev; [discriminate|].
  intros [->|Hin]; [rewrite String.eqb_refl in Ev; discriminate|].
  exact (IH eq_refl Hin).
Qed.

Lemma index_features_strings (fts : list json) (us : list string) :
  Forall2 (fun ft u => image_url ft = Done (JStr u)) fts us ->
  forall (idx : Z) (d : pydict),
  exists d',
    index_features fts idx d = Done d'
    /\ (forall u,
          dict_get d' (JStr u)
          = match last_pos u us with
            | Some j => Some (idx + Z.of_nat j)
            | None => dict_get d (JStr u)
            end)
    /\ (NoDup us -> (forall u, In u us -> dict_get d (JStr u) = None) ->
        List.length d' = (List.length d + List.length us)%nat).
Proof.
  induction 1 as [|ft u0 fts us Hft Hrest IH]; intros idx d.
  - exists d. split; [reflexivity|]. split; [reflexivity|].
    intros _ _. simpl. lia.
  - destruct (IH (idx + 1) (dict_set d (JStr u0) idx)) as (d' & E & G & L).
    exists d'. split; [|split].
    + simpl. rewrite Hft. simpl. exact E.
    + intros u. rewrite G. simpl. destruct (last_pos u us) as [j|].
      * f_equal. lia.
      * rewrite dict_get_set_str. destruct (String.eqb u0 u).
        -- f_equal. lia.
        -- reflexivity.
    + intros Hnd Hnew. inversion Hnd as [|? ? Hnotin Hnd']; subst.
      rewrite L.
      * rewrite dict_set_length_new by (apply Hnew; left; reflexivity).
        simpl. lia.
      * exact Hnd'.
      * intros u Hin. rewrite dict_get_set_str.
        destruct (String.eqb u0 u) eqn:Eu.
        -- apply String.eqb_eq in Eu. subst. contradiction.
        -- apply Hnew. right. exact Hin.
Qed.

(** X24. When the feature file holds a list whose entries all have a
    string under [mipmapLevels], [0], [imageUrl], [load_data_files]
    returns the tile specifications with a dictionary that maps each of
    these URLs to the last position at which it occurs in the list, and
    that has no entry for any other string. *)
Theorem load_data_files_index
    (read_json : string -> outcome json) (t f : string)
    (tiles : json) (fts : list json) (us : list string) :
  read_json (remove_all "file://" t) = Done tiles ->
  read_json (remove_all "file://" f) = Done (JList fts) ->
  Forall2 (fun ft u => image_url ft = Done (JStr u)) fts us ->
  exists d,
    load_data_files read_json t f = Done (tiles, d)
    /\ forall u,
         match dict_get d (JStr u) with
         | Some v =>
             exists j, v = Z.of_nat j /\ nth_error us j = Some u
                       /\ forall i, (j < i)%nat -> nth_error us i <> Some u
         | None => ~ In u us
         end.
Proof.
  intros Ht Hf H.
  destruct (index_features_strings fts us H 0 []) as (d & E & G & _).
  exists d. split.
  - unfold load_data_files. rewrite Ht, Hf. cbn [and_then iterate].
    rewrite E. reflexivity.
  - intros u. rewrite G. destruct (last_pos u us) as [j|] eqn:Ej.
    + exists j. split; [reflexivity|]. apply last_pos_some, Ej.
    + simpl. apply last_pos_none, Ej.
Qed.

Lemma load_data_files_index_witness :
  exists d,
    load_data_files
      (fun p => if String.eqb p "t.json" then Done (JList [])
                else Done (JList [feature_of "a.png"; feature_of "b.png";
                                  feature_of "a.png"]))
      "t.json" "file://f.json" = Done (JList [], d)
    /\ dict_get d (JStr "a.png") = Some 2
    /\ dict_get d (JStr "b.png") = Some 1
    /\ dict_get d (JStr "c.png") = None.
Proof.
  assert (HF : Forall2 (fun ft u => image_url ft = Done (JStr u))
                 [feature_of "a.png"; feature_of "b.png"; feature_of "a.png"]
                 ["a.png"; "b.png"; "a.png"])
    by (repeat constructor).
  destruct (load_data_files_index
              (fun p => if String.eqb p "t.json" then Done (JList [])
                        else Done (JList [feature_of "a.png";
                                          feature_of "b.png";
                                          feature_of "a.png"]))
              "t.json" "file://f.json" (JList [])
              [feature_of "a.png"; feature_of "b.png"; feature_of "a.png"]
              ["a.png"; "b.png"; "a.png"] eq_refl eq_refl HF)
    as (d & E & _).
  exists d. split; [exact E|].
  vm_compute in E. injection E as <-. repeat split.
Defined.

(** X25. When the URLs of the features are pairwise distinct, the
    dictionary has one entry per feature and maps the URL of the feature
    at position [i] to [i]. *)
Theorem load_data_files_distinct
    (read_json : string -> outcome json) (t f : string)
    (tiles : json) (fts : list json) (us : list string) :
  read_json (remove_all "file://" t) = Done tiles ->
  read_json (remove_all "file://" f) = Done (JList fts) ->
  Forall2 (fun ft u => image_url ft = Done (JStr u)) fts us ->
  NoDup us ->
  exists d,
    load_data_files read_json t f = Done (tiles, d)
    /\ List.length d = List.length fts
    /\ forall i u, nth_error us i = Some u ->
                   dict_get d (JStr u) = Some (Z.of_nat i).
Proof.
  intros Ht Hf H Hnd.
  destruct (index_features_strings fts us H 0 []) as (d & E & G & L).
  exists d. split; [|split].
  - unfold load_data_files. rewrite Ht, Hf. cbn [and_then iterate].
    rewrite E. reflexivity.
  - rewrite (L Hnd) by reflexivity. simpl.
    symmetry. exact (Forall2_length H).
  - intros i u Hi. rewrite G. destruct (last_pos u us) as [j|] eqn:Ej.
    + destruct (last_pos_some u us j Ej) as [Hj _].
      assert (Hlt : (i < List.length us)%nat)
        by (apply nth_error_Some; rewrite Hi; discriminate).
      rewrite (proj1 (NoDup_nth_error us) Hnd i j Hlt); [reflexivity|].
      rewrite Hi, Hj. reflexivity.
    + destruct (last_pos_none u us Ej). exact (nth_error_In us i Hi).
Qed.

Lemma load_data_files_distinct_witness :
  exists d,
    load_data_files
      (fun p => if String.eqb p "t.json" then Done (JList [])
                else Done (JList [feature_of "a.png"; feature_of "b.png"]))
      "t.json" "f.json" = Done (JList [], d)
    /\ List.length d = 2%nat
    /\ dict_get d (JStr "b.png") = Some 1.
Proof.
  assert (HF : Forall2 (fun ft u => image_url ft = Done (JStr u))
                 [feature_of "a.png"; feature_of "b.png"]
                 ["a.png"; "b.png"])
    by (repeat constructor).
  assert (HN : NoDup ["a.png"; "b.png"]).
  { constructor; [simpl; intros [H|[]]; discriminate H|].
    constructor; [simpl; tauto|constructor]. }
  destruct (load_data_files_distinct
              (fun p => if String.eqb p "t.json" then Done (JList [])
                        else Done (JList [feature_of "a.png";
                                          feature_of "b.png"]))
              "t.json" "f.json" (JList [])
              [feature_of "a.png"; feature_of "b.png"]
              ["a.png"; "b.png"] eq_refl eq_refl HF HN)
    as (d & E & L & G).
  exists d. split; [exact E|]. split; [exact L|].
  exact (G 1%nat "b.png" eq_refl).
Defined.

Lemma index_features_fail (good : list json) (bad : json)
    (rest : list json) (e : load_exn) :
  Forall (fun ft => exists u, image_url ft = Done u /\ hashable u = true)
    good ->
  image_url bad = Fail e ->
  forall (idx : Z) (d : pydict),
    index_features (List.app good (bad :: rest)) idx d = Fail e.
Proof.
  intros Hg Hb. induction Hg as [|ft good (u & Hu & Hh) _ IH]; intros idx d.
  - simpl. rewrite Hb. reflexivity.
  - simpl. rewrite Hu. simpl. rewrite Hh. apply IH.
Qed.

(** X26. No partial dictionary is returned: when an entry of the feature
    list lacks one of the keys [mipmapLevels], [0], [imageUrl] (or is no
    dictionary) and the entries before it are well formed, the call raises
    the exception of that entry, [KeyError] with the missing key for an
    entry without [mipmapLevels]. *)
Theorem load_data_files_bad_feature
    (read_json : string -> outcome json) (t f : string)
    (tiles : json) (good : list json) (bad : json) (rest : list json)
    (e : load_exn) :
  read_json (remove_all "file://" t) = Done tiles ->
  read_json (remove_all "file://" f)
  = Done (JList (List.app good (bad :: rest))) ->
  Forall (fun ft => exists u, image_url ft = Done u /\ hashable u = true)
    good ->
  (image_url bad = Fail e -> load_data_files read_json t f = Fail e)
  /\ (forall d, bad = JDict d -> lookup "mipmapLevels" d = None ->
        load_data_files read_json t f = Fail (KeyError "mipmapLevels")).
Proof.
  intros Ht Hf Hg.
  assert (K : forall e', image_url bad = Fail e' ->
                         load_data_files read_json t f = Fail e').
  { intros e' Hb. unfold load_data_files. rewrite Ht, Hf.
    cbn [and_then iterate].
    rewrite (index_features_fail good bad rest e' Hg Hb). reflexivity. }
  split; [apply K|].
  intros d -> Hd. apply K. unfold image_url, subscript. rewrite Hd.
  reflexivity.
Qed.

Lemma load_data_files_bad_feature_witness :
  load_data_files
    (fun p => if String.eqb p "t.json" then Done (JList [])
              else Done (JList [feature_of "a.png";
                                JDict [("bbox", JList [])];
                                feature_of "b.png"]))
    "t.json" "f.json" = Fail (KeyError "mipmapLevels").
Proof.
  assert (HG : Forall (fun ft => exists u, image_url ft = Done u
                                           /\ hashable u = true)
                 [feature_of "a.png"]).
  { constructor; [|constructor].
    exists (JStr "a.png"). split; reflexivity. }
  apply (proj2 (load_data_files_bad_feature
                  (fun p => if String.eqb p "t.json" then Done (JList [])
                            else Done (JList [feature_of "a.png";
                                              JDict [("bbox", JList [])];
                                              feature_of "b.png"]))
                  "t.json" "f.json" (JList []) [feature_of "a.png"]
                  (JDict [("bbox", JList [])]) [feature_of "b.png"]
                  TypeError eq_refl eq_refl HG)
           [("bbox", JList [])] eq_refl eq_refl).
Defined.

End LoaderFacts.
